(** * docs/tutorials/render_colored_points.ipynb

    A shallow embedding of the code cells of the tutorial notebook and the
    properties of its pipeline: asset fetch, device selection, archive load,
    renderer assembly, render invocation and display.

    The notebook is a sequence of cells run against one Python kernel.  A
    cell is embedded as a computation in a state-and-exception monad over
    - the kernel namespace (a finite map from variable names to values),
    - the world outside the kernel (file system, remote server, CUDA), and
    - the figures drawn so far.

    Library calls the notebook makes are embedded as follows.
    - Shell tools and the Python standard library ([mkdir -p], [wget -P],
      [os.path.join]) follow their manuals, see the comments at each.
    - [numpy]'s decoder and the numeric kernels of the renderer are fields
      of the record [Library]; every result below holds for all of them.

    The cells embedded are the data fetch cell, the load cell, the two
    renderer cells and the two render cells.  The [pip install] cell, which
    the notebook asks to run only when the packages are missing, and the
    import cell, which binds module names, are left out. *)

From stdpp Require Import base numbers strings list option gmap fin_maps pretty.
From Stdlib Require Import Strings.Ascii Strings.Byte QArith.

Local Open Scope Z_scope.
Local Open Scope string_scope.

(** ** The world outside the kernel *)

Inductive Entry : Type :=
  | Directory
  | RegularFile (content : list byte).

(** [fs] maps a path relative to the working directory to what is stored
    there; [remote] is what the server answers for a URL; [requests] logs
    every URL asked for, latest first. *)
Record World : Type := mkWorld {
  fs : gmap string Entry;
  remote : gmap string (list byte);
  requests : list string;
  cuda_available : bool;
  cuda_current : option Z
}.

Definition with_fs (w : World) (f : gmap string Entry) : World :=
  mkWorld f (remote w) (requests w) (cuda_available w) (cuda_current w).

Definition with_request (w : World) (url : string) : World :=
  mkWorld (fs w) (remote w) (url :: requests w) (cuda_available w)
          (cuda_current w).

Definition with_cuda_current (w : World) (i : Z) : World :=
  mkWorld (fs w) (remote w) (requests w) (cuda_available w) (Some i).

(** *** Paths *)

(** A path is looked up relative to the working directory: a leading
    [./] names the working directory itself. *)
Fixpoint resolve (p : string) : string :=
  match p with
  | String "."%char (String "/"%char rest) => resolve rest
  | _ => p
  end.

Definition starts_with_sep (p : string) : bool :=
  match p with String "/"%char _ => true | _ => false end.

Fixpoint ends_with_sep (p : string) : bool :=
  match p with
  | "" => false
  | String "/"%char "" => true
  | String _ rest => ends_with_sep rest
  end.

(** [os.path.join(a, b)] of posixpath: an absolute [b] replaces [a], an
    empty [a] or one ending in the separator is extended by [b], otherwise
    the separator is put in between. *)
Definition os_path_join (a b : string) : string :=
  if starts_with_sep b then b
  else if bool_decide (a = "") || ends_with_sep a then a +:+ b
  else a +:+ "/" +:+ b.

(** The directories on the way to [p], outermost first, [p] itself last. *)
Fixpoint path_prefixes (acc p : string) : list string :=
  match p with
  | "" => [acc]
  | String "/"%char rest => acc :: path_prefixes (acc +:+ "/") rest
  | String c rest => path_prefixes (acc +:+ String c "") rest
  end.

(** The directories on the way to [p], without [p] itself. *)
Definition parents (p : string) : list string :=
  removelast (path_prefixes "" p).

Definition is_regular (e : option Entry) : bool :=
  match e with Some (RegularFile _) => true | _ => false end.

(** A regular file sits where the path [p] needs a directory. *)
Definition blocked (f : gmap string Entry) (p : string) : bool :=
  existsb (λ q, is_regular (f !! q)) (parents p).

(** The last component of a URL or path. *)
Fixpoint basename (acc p : string) : string :=
  match p with
  | "" => acc
  | String "/"%char rest => basename "" rest
  | String c rest => basename (acc +:+ String c "") rest
  end.

(** *** Shell tools *)

(** [mkdir -p]: every missing directory on the way is created, an existing
    directory is kept, and a regular file in the way stops the command. *)
Fixpoint make_directories (ps : list string) (f : gmap string Entry)
  : gmap string Entry :=
  match ps with
  | [] => f
  | p :: rest =>
      match f !! p with
      | None => make_directories rest (<[p := Directory]> f)
      | Some Directory => make_directories rest f
      | Some (RegularFile _) => f
      end
  end.

Definition mkdir_p (dir : string) (w : World) : World :=
  with_fs w (make_directories (path_prefixes "" (resolve dir)) (fs w)).

(** Without [-nc], [-N] or [-O], wget keeps a file that is already there
    and stores the new copy under the first free name among [name],
    [name.1], [name.2], ... *)
Fixpoint unique_name (fuel n : nat) (name : string) (f : gmap string Entry)
  : option string :=
  match fuel with
  | O => None
  | S fuel' =>
      let candidate := name +:+ "." +:+ pretty n in
      match f !! candidate with
      | None => Some candidate
      | Some _ => unique_name fuel' (S n) name f
      end
  end.

Definition free_name (name : string) (f : gmap string Entry) : option string :=
  match f !! name with
  | None => Some name
  | Some _ => unique_name (S (size f)) 1 name f
  end.

(** [wget -P dir url]: the request is made whatever the file system holds;
    when the server answers, the body is stored in [dir] (created if
    missing) under a free name. *)
Definition wget_P (dir url : string) (w : World) : World :=
  let w1 := with_request w url in
  match remote w !! url with
  | None => w1
  | Some body =>
      let d := resolve dir in
      let f1 := make_directories (path_prefixes "" d) (fs w) in
      match f1 !! d with
      | Some Directory =>
          match free_name (d +:+ "/" +:+ basename "" url) f1 with
          | Some name => with_fs w1 (<[name := RegularFile body]> f1)
          | None => w1
          end
      | _ => w1
      end
  end.

Definition data_url : string :=
  "https://dl.fbaipublicfiles.com/pytorch3d/data/PittsburghBridge/pointcloud.npz".

(** ** Python values *)

Inductive Device : Type :=
  | Cpu
  | Cuda (index : Z).

Inductive PyError : Type :=
  | FileNotFoundError
  | IsADirectoryError
  | NotADirectoryError
  | ParseError
  | KeyError (key : string)
  | IndexError
  | NameError (name : string)
  | TypeError
  | ValueError.

(** A matplotlib figure: its size, the images shown on its axes and the
    arguments of the last [grid] and [axis] calls. *)
Record Figure (image : Type) : Type := mkFigure {
  figsize : option (Z * Z);
  shown : list image;
  grid_arg : option string;
  axis_arg : option string
}.
Arguments mkFigure {image}.
Arguments figsize {image}.
Arguments shown {image}.
Arguments grid_arg {image}.
Arguments axis_arg {image}.

Section Notebook.

(** [scalar] is the element type of the numeric arrays (floating point
    numbers, which the notebook only moves around); [CompositeParams] is
    the type of the optional compositor parameters. *)
Context {scalar CompositeParams : Type}.

(** An array is a sequence of records, [len] is its first dimension. *)
Definition ndarray : Type := list (list scalar).

(** What [np.load] returns: a lazily read archive of named members, or
    one array when the file is a single [.npy]; a structured array has
    named fields, a plain array has none. *)
Inductive Loaded : Type :=
  | NpzFile (members : gmap string (list byte))
  | NdArray (a : ndarray) (fields : gmap string ndarray).

(** What indexing by a name gives: an array, or the bytes of an archive
    member that is not in the [.npy] format. *)
Inductive Item : Type :=
  | ItemArray (a : ndarray)
  | ItemBytes (raw : list byte).

Record Tensor : Type := mkTensor {
  data : ndarray;
  device : Device
}.

(** Modelled from the spec: the class [Pointclouds] is absent from src/;
    a point cloud batch holds a list of position arrays and a list of
    colour arrays, paired by index. *)
Record Pointclouds : Type := mkPointclouds {
  points_list : list Tensor;
  features_list : list Tensor
}.

Definition Rotation : Type := list (list (list scalar)).
Definition Translation : Type := list (list scalar).

(** Modelled from the spec: the class [OpenGLOrthographicCameras] is absent
    from src/; a camera keeps the rotation-translation pair, the near plane
    and the device it was built with. *)
Record OpenGLOrthographicCameras : Type := mkCameras {
  cam_device : Device;
  cam_R : Rotation;
  cam_T : Translation;
  znear : Q
}.

Record PointsRasterizationSettings : Type := mkSettings {
  image_size : Z;
  radius : Q;
  points_per_pixel : Z
}.

Record PointsRasterizer : Type := mkRasterizer {
  cameras : OpenGLOrthographicCameras;
  raster_settings : PointsRasterizationSettings
}.

Inductive Compositor : Type :=
  | AlphaCompositor (composite_params : option CompositeParams)
  | NormWeightedCompositor (composite_params : option CompositeParams).

Record PointsRenderer : Type := mkRenderer {
  rasterizer : PointsRasterizer;
  compositor : Compositor
}.

(** An image is rows of pixels of channel values; a render returns a
    batch of images. *)
Definition Image : Type := list (list (list scalar)).

Record Images : Type := mkImages {
  batch : list Image
}.

Inductive Value : Type :=
  | VDevice (d : Device)
  | VStr (s : string)
  | VLoaded (l : Loaded)
  | VTensor (t : Tensor)
  | VPointclouds (pc : Pointclouds)
  | VRotation (r : Rotation)
  | VTranslation (t : Translation)
  | VCameras (c : OpenGLOrthographicCameras)
  | VSettings (rs : PointsRasterizationSettings)
  | VRenderer (r : PointsRenderer)
  | VImages (i : Images).

(** The parts of the libraries the results do not depend on:
    - [np_sniff] is [np.load]'s reading of the file header and, for an
      archive, of its directory ([None]: neither an archive nor an array);
    - [npy_magic] tells whether an archive member starts with the magic
      string of the [.npy] format;
    - [npy_decode] decodes a member that does ([None]: it is corrupt);
    - [convertible] tells whether [torch.Tensor] takes an array (it refuses
      element types it cannot convert), and [float32] is the conversion of
      one element;
    - [look_at_view_transform] is the camera pose of (dist, elev, azim);
    - [pixel] is the colour the rasterizer and the compositor give to the
      pixel in row [y], column [x] for one cloud. *)
Record Library : Type := mkLibrary {
  np_sniff : list byte → option Loaded;
  npy_magic : list byte → bool;
  npy_decode : list byte → option ndarray;
  convertible : ndarray → bool;
  float32 : scalar → scalar;
  look_at_view_transform : Z → Z → Z → Rotation * Translation;
  pixel : PointsRenderer → Tensor → Tensor → Z → Z → list scalar
}.

Context (lib : Library).

(** ** The kernel monad *)

Record State : Type := mkState {
  ns : gmap string Value;
  world : World;
  figures : list (Figure Image)
}.

Definition Py (A : Type) : Type := State → State * (PyError + A).

Definition py_ret {A} (a : A) : Py A := λ s, (s, inr a).
Definition raise {A} (e : PyError) : Py A := λ s, (s, inl e).
Definition py_bind {A B} (k : A → Py B) (c : Py A) : Py B :=
  λ s, match c s with
       | (s1, inr a) => k a s1
       | (s1, inl e) => (s1, inl e)
       end.

#[global] Instance Py_ret : MRet Py := @py_ret.
#[global] Instance Py_bind : MBind Py := @py_bind.

Definition lift {A} (r : PyError + A) : Py A := λ s, (s, r).

(** [x = v] *)
Definition assign (x : string) (v : Value) : Py () :=
  λ s, (mkState (<[x := v]> (ns s)) (world s) (figures s), inr ()).

(** Reading the variable [x]. *)
Definition name (x : string) : Py Value :=
  λ s, match ns s !! x with
       | Some v => (s, inr v)
       | None => (s, inl (NameError x))
       end.

(** A [!command] line: the exit status of the command is dropped. *)
Definition shell (cmd : World → World) : Py () :=
  λ s, (mkState (ns s) (cmd (world s)) (figures s), inr ()).

Definition the_device (v : Value) : Py Device :=
  lift match v with VDevice d => inr d | _ => inl TypeError end.
Definition the_str (v : Value) : Py string :=
  lift match v with VStr x => inr x | _ => inl TypeError end.
Definition the_tensor (v : Value) : Py Tensor :=
  lift match v with VTensor x => inr x | _ => inl TypeError end.
Definition the_pointclouds (v : Value) : Py Pointclouds :=
  lift match v with VPointclouds x => inr x | _ => inl TypeError end.
Definition the_rotation (v : Value) : Py Rotation :=
  lift match v with VRotation x => inr x | _ => inl TypeError end.
Definition the_translation (v : Value) : Py Translation :=
  lift match v with VTranslation x => inr x | _ => inl TypeError end.
Definition the_cameras (v : Value) : Py OpenGLOrthographicCameras :=
  lift match v with VCameras x => inr x | _ => inl TypeError end.
Definition the_settings (v : Value) : Py PointsRasterizationSettings :=
  lift match v with VSettings x => inr x | _ => inl TypeError end.
Definition the_renderer (v : Value) : Py PointsRenderer :=
  lift match v with VRenderer x => inr x | _ => inl TypeError end.
Definition the_images (v : Value) : Py Images :=
  lift match v with VImages x => inr x | _ => inl TypeError end.
Definition the_loaded (v : Value) : Py Loaded :=
  lift match v with VLoaded x => inr x | _ => inl TypeError end.

(** ** Library calls *)

Definition torch_cuda_is_available : Py bool :=
  λ s, (s, inr (cuda_available (world s))).

Definition torch_cuda_set_device (d : Device) : Py () :=
  λ s, match d with
       | Cuda i =>
           (mkState (ns s) (with_cuda_current (world s) i) (figures s), inr ())
       | Cpu => (s, inl ValueError)
       end.

(** [np.load(path)]: opening the file fails when a regular file sits
    where the path needs a directory, and when nothing, or a directory, is
    at the path; a file that is neither an archive nor an array is
    refused.  (On a file system map that lists a file without listing its
    directories the file is still found.) *)
Definition np_load (path : string) : Py Loaded :=
  λ s, if blocked (fs (world s)) (resolve path)
       then (s, inl NotADirectoryError)
       else
         match fs (world s) !! resolve path with
         | None => (s, inl FileNotFoundError)
         | Some Directory => (s, inl IsADirectoryError)
         | Some (RegularFile content) =>
             match np_sniff lib content with
             | Some l => (s, inr l)
             | None => (s, inl ParseError)
             end
         end.

(** [loaded[key]].  An archive looks the member of that name up: a member
    in the [.npy] format is decoded, any other member is handed out as
    bytes.  A structured array gives the field of that name; a plain array
    has no string index. *)
Definition getitem (l : Loaded) (key : string) : PyError + Item :=
  match l with
  | NpzFile members =>
      match members !! key with
      | None => inl (KeyError key)
      | Some raw =>
          if npy_magic lib raw
          then match npy_decode lib raw with
               | Some a => inr (ItemArray a)
               | None => inl ParseError
               end
          else inr (ItemBytes raw)
      end
  | NdArray _ fields =>
      match fields !! key with
      | Some a => inr (ItemArray a)
      | None =>
          if bool_decide (fields = ∅) then inl IndexError else inl ValueError
      end
  end.

(** The conversion of an array, element by element; the shape is kept. *)
Definition to_float32 (a : list (list scalar)) : list (list scalar) :=
  (λ record : list scalar, float32 lib <$> record) <$> a.

(** [torch.Tensor(x)]: an array is converted to a float tensor on the
    host; bytes, and arrays of elements that cannot be converted, are
    refused. *)
Definition torch_Tensor (x : Item) : PyError + Tensor :=
  match x with
  | ItemArray a =>
      if convertible lib a then inr (mkTensor (to_float32 a) Cpu)
      else inl TypeError
  | ItemBytes _ => inl TypeError
  end.

Definition to (t : Tensor) (d : Device) : Tensor := mkTensor (data t) d.

Definition len (t : Tensor) : nat := length (data t).

(** Modelled from the spec: the constructor of [Pointclouds] is absent from
    src/; the spec gives the invariant that the position array and the
    colour array of a cloud have the same length, so the constructor
    refuses lists that break it. *)
Definition Pointclouds_init (points features : list Tensor)
  : PyError + Pointclouds :=
  if bool_decide (Forall2 (λ p f, len p = len f) points features)
  then inr (mkPointclouds points features)
  else inl ValueError.

(** Modelled from the spec: [PointsRenderer.__call__], the rasterizer and
    the compositors are absent from src/; by the spec a render is a
    function of (point cloud, camera, settings, compositor) that returns an
    image of the configured resolution, here one per cloud of the batch. *)
Definition render_cloud (r : PointsRenderer) (p f : Tensor) : Image :=
  let range := seqZ 0 (image_size (raster_settings (rasterizer r))) in
  (λ y, (λ x, pixel lib r p f y x) <$> range) <$> range.

Definition PointsRenderer_call (r : PointsRenderer) (pc : Pointclouds)
  : Images :=
  mkImages (zip_with (render_cloud r) (points_list pc) (features_list pc)).

(** [im[..., :3]]: every pixel cut to its first three channels. *)
Definition first_three_channels (im : list (list (list scalar)))
  : list (list (list scalar)) :=
  (λ row : list (list scalar), take 3 <$> row) <$> im.

(** [images[0, ..., :3].cpu().numpy()]: the first image of the batch, cut
    to three channels (moving it to the host leaves the values as they
    are); an empty batch has no index 0. *)
Definition first_image_rgb (i : Images) : PyError + Image :=
  match batch i !! 0%nat with
  | Some im => inr (first_three_channels im)
  | None => inl IndexError
  end.

(** *** matplotlib *)

Definition plt_figure (size : Z * Z) : Py () :=
  λ s, (mkState (ns s) (world s) (mkFigure (Some size) [] None None :: figures s),
        inr ()).

(** A drawing call acts on the current figure and opens one if there is
    none. *)
Definition on_current (f : Figure Image → Figure Image) : Py () :=
  λ s, let figs := match figures s with
                   | [] => [f (mkFigure None [] None None)]
                   | cur :: rest => f cur :: rest
                   end in
       (mkState (ns s) (world s) figs, inr ()).

(** The pixel shapes [imshow] takes: one, three or four channels. *)
Definition channels_accepted (px : list scalar) : bool :=
  match length px with
  | 1%nat | 3%nat | 4%nat => true
  | _ => false
  end.

Definition imshow_accepts (im : list (list (list scalar))) : bool :=
  forallb (forallb channels_accepted) im.

(** [plt.imshow(im)] refuses an image whose pixels have another number of
    channels. *)
Definition plt_imshow (im : Image) : Py () :=
  if imshow_accepts im
  then on_current (λ g, mkFigure (figsize g) (shown g ++ [im]) (grid_arg g)
                                 (axis_arg g))
  else raise TypeError.
Definition plt_grid (a : string) : Py () :=
  on_current (λ g, mkFigure (figsize g) (shown g) (Some a) (axis_arg g)).
Definition plt_axis (a : string) : Py () :=
  on_current (λ g, mkFigure (figsize g) (shown g) (grid_arg g) (Some a)).

(** ** The cells *)

(** The data fetch cell. *)
Definition cell_fetch : Py () :=
  shell (mkdir_p "data/PittsburghBridge");;
  shell (wget_P "data/PittsburghBridge" data_url).

(** [# Setup], the first statement of the load cell. *)
Definition setup_device : Py () :=
  available ← torch_cuda_is_available;
  if available : bool
  then assign "device" (VDevice (Cuda 0));;
       device ← name "device" ≫= the_device;
       torch_cuda_set_device device
  else assign "device" (VDevice Cpu).

(** [# Set paths] and [# Load point cloud] up to the two tensors. *)
Definition load_arrays : Py () :=
  assign "DATA_DIR" (VStr "./data");;
  DATA_DIR ← name "DATA_DIR" ≫= the_str;
  assign "obj_filename"
         (VStr (os_path_join DATA_DIR "PittsburghBridge/pointcloud.npz"));;
  obj_filename ← name "obj_filename" ≫= the_str;
  loaded ← np_load obj_filename;
  assign "pointcloud" (VLoaded loaded);;
  pointcloud ← name "pointcloud" ≫= the_loaded;
  item ← lift (getitem pointcloud "verts");
  tensor ← lift (torch_Tensor item);
  device ← name "device" ≫= the_device;
  assign "verts" (VTensor (to tensor device));;
  pointcloud ← name "pointcloud" ≫= the_loaded;
  item ← lift (getitem pointcloud "rgb");
  tensor ← lift (torch_Tensor item);
  device ← name "device" ≫= the_device;
  assign "rgb" (VTensor (to tensor device)).

Definition build_point_cloud : Py () :=
  verts ← name "verts" ≫= the_tensor;
  rgb ← name "rgb" ≫= the_tensor;
  pc ← lift (Pointclouds_init [verts] [rgb]);
  assign "point_cloud" (VPointclouds pc).

Definition cell_load : Py () :=
  setup_device;; load_arrays;; build_point_cloud.

Definition notebook_settings : PointsRasterizationSettings :=
  mkSettings 512 (3 # 1000) 10.

(** The first renderer cell. *)
Definition cell_renderer_alpha : Py () :=
  let '(R, T) := look_at_view_transform lib 20 10 0 in
  assign "R" (VRotation R);;
  assign "T" (VTranslation T);;
  device ← name "device" ≫= the_device;
  R ← name "R" ≫= the_rotation;
  T ← name "T" ≫= the_translation;
  assign "cameras" (VCameras (mkCameras device R T (1 # 100)));;
  assign "raster_settings" (VSettings (mkSettings 512 (3 # 1000) 10));;
  cameras ← name "cameras" ≫= the_cameras;
  raster_settings ← name "raster_settings" ≫= the_settings;
  assign "renderer"
         (VRenderer (mkRenderer (mkRasterizer cameras raster_settings)
                                (AlphaCompositor None))).

(** The second renderer cell. *)
Definition cell_renderer_norm : Py () :=
  let '(R, T) := look_at_view_transform lib 20 10 0 in
  assign "R" (VRotation R);;
  assign "T" (VTranslation T);;
  device ← name "device" ≫= the_device;
  R ← name "R" ≫= the_rotation;
  T ← name "T" ≫= the_translation;
  assign "cameras" (VCameras (mkCameras device R T (1 # 100)));;
  assign "raster_settings" (VSettings (mkSettings 512 (3 # 1000) 10));;
  cameras ← name "cameras" ≫= the_cameras;
  raster_settings ← name "raster_settings" ≫= the_settings;
  assign "renderer"
         (VRenderer (mkRenderer (mkRasterizer cameras raster_settings)
                                (NormWeightedCompositor None))).

(** The render-and-show cell; the notebook has it twice, once after each
    renderer cell.  In [renderer(point_cloud)] both names are read before
    the call looks at what they hold. *)
Definition cell_render : Py () :=
  callee ← name "renderer";
  argument ← name "point_cloud";
  renderer ← the_renderer callee;
  point_cloud ← the_pointclouds argument;
  assign "images" (VImages (PointsRenderer_call renderer point_cloud));;
  plt_figure (10, 10);;
  images ← name "images" ≫= the_images;
  im ← lift (first_image_rgb images);
  plt_imshow im;;
  plt_grid "off";;
  plt_axis "off".

(** The cells from the load on, in the order of the notebook. *)
Definition run_pipeline : Py () :=
  cell_load;;
  cell_renderer_alpha;; cell_render;;
  cell_renderer_norm;; cell_render.

(** Run All from the data fetch cell on. *)
Definition run_all : Py () :=
  cell_fetch;; run_pipeline.

End Notebook.

(** ** Vocabulary of the properties *)

(** The path the fetch cell stores the archive at and the load cell reads,
    as a key of the file system. *)
Definition target : string := "data/PittsburghBridge/pointcloud.npz".

Definition chosen_device (w : World) : Device :=
  if cuda_available w then Cuda 0 else Cpu.

Definition entries_kept (f f' : gmap string Entry) : Prop :=
  ∀ p e, f !! p = Some e → f' !! p = Some e.

Section Vocabulary.

Context {scalar CompositeParams : Type}.
Context (lib : @Library scalar CompositeParams).

Local Abbreviation State := (@State scalar CompositeParams).
Local Abbreviation Py := (@Py scalar CompositeParams).
Local Abbreviation ndarray := (@ndarray scalar).
Local Abbreviation Image := (@Image scalar).

(** [frame R c]: the state [c] ends in, failing or not, is [R]-related to
    the state it started from. *)
Definition frame (R : relation State) {A} (c : Py A) : Prop :=
  ∀ s, R s (c s).1.

(** A computation that never changes the state. *)
Definition reads_only {A} (c : Py A) : Prop := ∀ s, (c s).1 = s.

Definition keeps (x : string) : relation State :=
  λ s s', ns s' !! x = ns s !! x.
Definition same_fs : relation State :=
  λ s s', fs (world s') = fs (world s).
Definition same_figures : relation State :=
  λ s s', figures s' = figures s.
Definition files_kept : relation State :=
  λ s s', entries_kept (fs (world s)) (fs (world s')).

(** What the load makes of one name of what [np.load] returned: the data
    of the tensor, or the exception of the step that fails. *)
Definition read_item (loaded : Loaded) (key : string) : PyError + ndarray :=
  match getitem lib loaded key with
  | inl e => inl e
  | inr item =>
      match torch_Tensor lib item with
      | inl e => inl e
      | inr t => inr (data t)
      end
  end.

(** What the load makes of the bytes of a file: the two arrays, or the
    exception of the first step that fails. *)
Definition decode_archive (content : list byte)
  : PyError + (ndarray * ndarray) :=
  match np_sniff lib content with
  | None => inl ParseError
  | Some loaded =>
      match read_item loaded "verts" with
      | inl e => inl e
      | inr verts =>
          match read_item loaded "rgb" with
          | inl e => inl e
          | inr rgb => inr (verts, rgb)
          end
      end
  end.

(** What the load reads from the file system, as a function: the two
    arrays, or the exception of the first step that fails. *)
Definition read_archive (f : gmap string Entry)
  : PyError + (ndarray * ndarray) :=
  if blocked f target then inl NotADirectoryError
  else
    match f !! target with
    | None => inl FileNotFoundError
    | Some Directory => inl IsADirectoryError
    | Some (RegularFile content) => decode_archive content
    end.





(** What the render cell reads from the namespace: both names first,
    then what they hold. *)
Definition render_inputs (m : gmap string (@Value scalar CompositeParams))
  : PyError + (PointsRenderer * Pointclouds) :=
  match m !! "renderer" with
  | None => inl (NameError "renderer")
  | Some callee =>
      match m !! "point_cloud" with
      | None => inl (NameError "point_cloud")
      | Some argument =>
          match callee, argument with
          | VRenderer r, VPointclouds pc => inr (r, pc)
          | _, _ => inl TypeError
          end
      end
  end.

(** The image a render cell shows for a rendered batch, or the exception
    of the indexing or of [imshow]. *)
Definition first_shown (imgs : @Images scalar) : PyError + Image :=
  match first_image_rgb imgs with
  | inl e => inl e
  | inr im => if imshow_accepts im then inr im else inl TypeError
  end.

(** A path at which a directory is, or can be made. *)
Definition directory_or_free (f : gmap string Entry) (p : string) : Prop :=
  f !! p = None ∨ f !! p = Some Directory.

(** The cells that run after the load cell. *)
Definition later_cells : list (Py ()) :=
  [cell_renderer_alpha lib; cell_render lib; cell_renderer_norm lib].

(** The camera both renderer cells build on device [d]. *)
Definition notebook_cameras (d : Device) : OpenGLOrthographicCameras :=
  mkCameras d (look_at_view_transform lib 20 10 0).1
            (look_at_view_transform lib 20 10 0).2 (1 # 100).

(** The namespace after a renderer cell with compositor [c]. *)
Definition assembled (d : Device) (c : Compositor)
    (m : gmap string (@Value scalar CompositeParams))
  : gmap string (@Value scalar CompositeParams) :=
  <["renderer" := VRenderer
       (mkRenderer (mkRasterizer (notebook_cameras d) notebook_settings) c)]>
    (<["raster_settings" := VSettings notebook_settings]>
       (<["cameras" := VCameras (notebook_cameras d)]>
          (<["T" := VTranslation (look_at_view_transform lib 20 10 0).2]>
             (<["R" := VRotation (look_at_view_transform lib 20 10 0).1]> m)))).

Definition camera_bound (d : Device) (s : State) : Prop :=
  ns s !! "device" = Some (VDevice d) ∧
  ns s !! "R" = Some (VRotation (look_at_view_transform lib 20 10 0).1) ∧
  ns s !! "T" = Some (VTranslation (look_at_view_transform lib 20 10 0).2) ∧
  ns s !! "cameras" = Some (VCameras (notebook_cameras d)).

(** An image of [n] rows of [n] pixels. *)
Definition resolution (n : nat) (im : Image) : Prop :=
  length im = n ∧ Forall (λ row, length row = n) im.

(** *** Further vocabulary *)

(** How the load cell ends on what it read. *)
Definition load_result (r : PyError + (ndarray * ndarray)) : PyError + () :=
  match r with
  | inl e => inl e
  | inr (verts, rgb) =>
      if bool_decide (length verts = length rgb) then inr () else inl ValueError
  end.

Definition same_world : relation State :=
  λ s s', world s' = world s.

(** The world after the setup: CUDA device 0 is made current when CUDA is
    available. *)
Definition selected (w : World) : World :=
  if cuda_available w then with_cuda_current w 0 else w.

(** The renderer a renderer cell builds on device [d] with compositor [c]. *)
Definition notebook_renderer (d : Device)
    (c : @Compositor CompositeParams) : @PointsRenderer scalar CompositeParams :=
  mkRenderer (mkRasterizer (notebook_cameras d) notebook_settings) c.

(** The figure a render cell leaves for one cloud. *)
Definition rendered_figure (r : @PointsRenderer scalar CompositeParams)
    (verts rgb : @Tensor scalar) : Figure Image :=
  mkFigure (Some (10, 10))
           [first_three_channels (render_cloud lib r verts rgb)]
           (Some "off") (Some "off").

(** How showing the render of one cloud ends. *)
Definition show_result (r : @PointsRenderer scalar CompositeParams)
    (verts rgb : @Tensor scalar) : PyError + () :=
  if imshow_accepts (first_three_channels (render_cloud lib r verts rgb))
  then inr () else inl TypeError.

(** How the run from the load cell on ends, as a function of the world:
    as the load ends, and when the load completes, as the first of the two
    displays that fails, if one does. *)
Definition pipeline_result (w : World) : PyError + () :=
  match read_archive (fs w) with
  | inl e => inl e
  | inr (verts, rgb) =>
      if bool_decide (length verts = length rgb)
      then
        match show_result (notebook_renderer (chosen_device w)
                                             (AlphaCompositor None))
                          (mkTensor verts (chosen_device w))
                          (mkTensor rgb (chosen_device w)) with
        | inl e => inl e
        | inr _ =>
            show_result (notebook_renderer (chosen_device w)
                                           (NormWeightedCompositor None))
                        (mkTensor verts (chosen_device w))
                        (mkTensor rgb (chosen_device w))
        end
      else inl ValueError
  end.

(** The namespace after a renderer cell that stopped at [device]. *)
Definition pose_only (m : gmap string (@Value scalar CompositeParams))
  : gmap string (@Value scalar CompositeParams) :=
  <["T" := VTranslation (look_at_view_transform lib 20 10 0).2]>
    (<["R" := VRotation (look_at_view_transform lib 20 10 0).1]> m).

(** *** Readings of the specification that the code does not meet *)




(** An unavailable compute device as a failure, with no fallback. *)
Definition device_failure_propagates (s : State) : Prop :=
  cuda_available (world s) = false → ∃ e, (setup_device s).2 = inl e.

(** No download when the file is already at the target path. *)
Definition fetch_only_if_absent (s : State) : Prop :=
  is_Some (fs (world s) !! target) →
  requests (world (cell_fetch s).1) = requests (world s).


End Vocabulary.

(** ** A small instance to run the cells on *)

Module Toy.

(** An archive is the byte [P] followed by one byte per member, first
    [verts] then [rgb]; in an archive that starts with [Q] the members are
    not in the [.npy] format.  A file that starts with the magic byte is a
    plain array, one that starts with [S] a structured array with the
    fields [verts] and [rgb]. *)
Definition member (b : byte) : list byte := [x93; b].

Definition members_of (wrap : byte → list byte) (v : byte) (rest : list byte)
  : gmap string (list byte) :=
  <["verts" := wrap v]>
    match rest with
    | [] => ∅
    | c :: _ => {["rgb" := wrap c]}
    end.

Definition sniff (content : list byte) : option (@Loaded Z) :=
  match content with
  | x50 :: v :: rest => Some (NpzFile (members_of member v rest))
  | x51 :: v :: rest => Some (NpzFile (members_of (λ b, [b]) v rest))
  | x93 :: _ => Some (NdArray [] ∅)
  | x53 :: _ =>
      Some (NdArray [] {[ "verts" := replicate 2 [0; 0; 0];
                          "rgb" := replicate 2 [0; 0; 0] ]})
  | _ => None
  end.

Definition magic (raw : list byte) : bool :=
  match raw with
  | x93 :: _ => true
  | _ => false
  end.

(** A member byte [n] decodes to [n] records of three values when
    [0 < n < 128] and to [n - 128] records of one value when [128 <= n];
    the byte [0] is a corrupt member. *)
Definition decode (raw : list byte) : option (@ndarray Z) :=
  match raw with
  | [x93; b] =>
      match Byte.to_nat b with
      | O => None
      | n => if (n <? 128)%nat then Some (replicate n [0; 0; 0])
             else Some (replicate (n - 128) [0])
      end
  | _ => None
  end.

(** A pixel has one channel more than the colours of the cloud. *)
Definition shade (f : @Tensor Z) (y x : Z) : list Z :=
  match data f with
  | [] => []
  | colour :: _ => take (S (length colour)) [y; x; 0; 1]
  end.

Definition lib : @Library Z unit :=
  mkLibrary sniff magic decode (λ _, true) (λ v, v)
    (λ dist elev azim, ([[[1; 0; 0]; [0; 1; 0]; [0; 0; 1]]], [[azim; elev; dist]]))
    (λ _ _ f y x, shade f y x).

Definition archive : list byte := [x50; x02; x02].
Definition archive_without_rgb : list byte := [x50; x02].

Definition stored (content : list byte) : gmap string Entry :=
  {[ "data" := Directory;
     "data/PittsburghBridge" := Directory;
     target := RegularFile content ]}.

(** Nothing on disk, the server has the archive, no GPU. *)
Definition fresh : World := mkWorld ∅ {[ data_url := archive ]} [] false None.

(** The archive is on disk already. *)
Definition local : World :=
  mkWorld (stored archive) {[ data_url := archive ]} [] false None.

(** The archive on disk has two positions and three colours. *)
Definition local_mismatched : World :=
  mkWorld (stored [x50; x02; x03]) ∅ [] false None.

(** The file on disk is a single array, not an archive. *)
Definition local_single_array : World :=
  mkWorld (stored [x93]) ∅ [] true None.

(** The file on disk is a structured array with both fields. *)
Definition local_structured_array : World :=
  mkWorld (stored [x53]) ∅ [] false None.

(** The members of the archive on disk are not in the [.npy] format. *)
Definition local_raw_members : World :=
  mkWorld (stored [x51; x02; x02]) ∅ [] false None.

(** The colours of the archive on disk have one value each. *)
Definition local_one_value_colours : World :=
  mkWorld (stored [x50; x82; x82]) ∅ [] false None.

(** A regular file named [data] is in the way. *)
Definition local_blocked : World :=
  mkWorld {[ "data" := RegularFile [] ]} ∅ [] false None.

(** The archive on disk has no member [rgb]. *)
Definition local_without_rgb : World :=
  mkWorld (stored archive_without_rgb) ∅ [] false None.

Definition start (w : World) : @State Z unit := mkState ∅ w [].

Definition with_device (w : World) : @State Z unit :=
  mkState {[ "device" := VDevice Cpu ]} w [].

(** The state after the load cell and the first renderer cell. *)
Definition ready : @State Z unit :=
  (cell_renderer_alpha lib (cell_load lib (start local)).1).1.

(** The renderer and the point cloud bound in [ready]. *)
Definition renderer : @PointsRenderer Z unit :=
  mkRenderer (mkRasterizer (notebook_cameras lib Cpu) (mkSettings 512 (3 # 1000) 10))
             (AlphaCompositor None).

Definition cloud : @Pointclouds Z :=
  mkPointclouds [mkTensor (replicate 2 [0; 0; 0]) Cpu]
                [mkTensor (replicate 2 [0; 0; 0]) Cpu].

(** Nothing on disk and a server that does not answer. *)
Definition offline : World := mkWorld ∅ ∅ [] false None.

(** A kernel that holds a cloud from an earlier load, over a disk that has
    lost the archive. *)
Definition loaded_before : @State Z unit :=
  mkState {[ "point_cloud" := VPointclouds cloud ]} offline [].


(** A kernel in which [renderer] holds a string and [point_cloud] is
    unbound. *)
Definition cluttered_renderer : @State Z unit :=
  mkState {[ "renderer" := VStr "x" ]} local [].

(** A rendered image of one row of two RGB pixels. *)
Definition rgb_image : @Image Z := [[[1; 2; 3]; [4; 5; 6]]].

End Toy.

(** ** Reasoning about cells *)

Section Properties.

Context {scalar CompositeParams : Type}.
Context (lib : @Library scalar CompositeParams).

Local Abbreviation State := (@State scalar CompositeParams).
Local Abbreviation Py := (@Py scalar CompositeParams).
Local Abbreviation Value := (@Value scalar CompositeParams).
Local Abbreviation Tensor := (@Tensor scalar).
Local Abbreviation ndarray := (@ndarray scalar).
Local Abbreviation Pointclouds := (@Pointclouds scalar).
Local Abbreviation PointsRenderer := (@PointsRenderer scalar CompositeParams).
Local Abbreviation Images := (@Images scalar).
Local Abbreviation Image := (@Image scalar).
Local Abbreviation frame := (@frame scalar CompositeParams).
Local Abbreviation reads_only := (@reads_only scalar CompositeParams).
Local Abbreviation keeps := (@keeps scalar CompositeParams).
Local Abbreviation same_fs := (@same_fs scalar CompositeParams).
Local Abbreviation same_figures := (@same_figures scalar CompositeParams).
Local Abbreviation files_kept := (@files_kept scalar CompositeParams).

(** *** Symbolic execution of straight-line cells *)

Ltac py_unfold :=
  unfold mbind, Py_bind, py_bind, mret, Py_ret, py_ret, assign, name, lift,
    raise, shell, the_device, the_str, the_tensor, the_pointclouds,
    the_rotation, the_translation, the_cameras, the_settings, the_renderer,
    the_images, the_loaded, plt_figure, plt_imshow, plt_grid, plt_axis,
    on_current, torch_cuda_is_available, torch_cuda_set_device.

Ltac py_lookup :=
  repeat match goal with
    | H : ns ?s !! ?x = _ |- context [ns ?s !! ?x] => rewrite H
    | H : fs ?w !! ?x = _ |- context [fs ?w !! ?x] => rewrite H
    | H : cuda_available ?w = _ |- context [cuda_available ?w] => rewrite H
    end.

Ltac py_simpl :=
  repeat first
    [ progress cbn [ns world figures fst snd fs remote requests
                    cuda_available cuda_current with_cuda_current]
    | rewrite lookup_insert_eq
    | rewrite lookup_insert_ne by done
    | progress py_lookup ].

Ltac py_run := repeat (progress (py_unfold; py_simpl)).

(** *** Frames: what a computation leaves alone *)

#[local] Instance keeps_preorder x : PreOrder (keeps x).
Proof. split; unfold keeps; [done | intros s1 s2 s3 H1 H2; congruence]. Qed.
#[local] Instance same_fs_preorder : PreOrder same_fs.
Proof. split; unfold same_fs; [done | intros s1 s2 s3 H1 H2; congruence]. Qed.
#[local] Instance same_figures_preorder : PreOrder same_figures.
Proof. split; unfold same_figures; [done | intros s1 s2 s3 H1 H2; congruence]. Qed.
#[local] Instance entries_kept_preorder : PreOrder entries_kept.
Proof.
  split; [by intros f p e | intros f1 f2 f3 H1 H2 p e Hp; eauto].
Qed.
#[local] Instance files_kept_preorder : PreOrder files_kept.
Proof.
  split; [intros s; unfold files_kept; reflexivity |].
  intros s1 s2 s3 H1 H2. unfold files_kept in *. by etrans.
Qed.

Lemma frame_bind (R : relation State) `{!Transitive R} {A B}
    (c : Py A) (k : A → Py B) :
  frame R c → (∀ a, frame R (k a)) → frame R (c ≫= k).
Proof.
  intros Hc Hk s. unfold mbind, Py_bind, py_bind.
  specialize (Hc s). destruct (c s) as [s1 [e | a]]; simpl in *; [done |].
  etrans; [exact Hc | apply Hk].
Qed.

Lemma frame_reads_only (R : relation State) `{!Reflexive R} {A} (c : Py A) :
  reads_only c → frame R c.
Proof. intros Hc s. by rewrite Hc. Qed.

Lemma reads_only_name x : reads_only (name x).
Proof. intros s. unfold name. by destruct (ns s !! x). Qed.
Lemma reads_only_lift {A} (r : PyError + A) : reads_only (lift r).
Proof. done. Qed.
Lemma reads_only_bind {A B} (c : Py A) (k : A → Py B) :
  reads_only c → (∀ a, reads_only (k a)) → reads_only (c ≫= k).
Proof.
  intros Hc Hk s. unfold mbind, Py_bind, py_bind.
  specialize (Hc s). destruct (c s) as [s1 [e | a]]; simpl in *; [done |].
  subst s1. apply Hk.
Qed.
Lemma reads_only_np_load path : reads_only (np_load lib path).
Proof. intros s. unfold np_load. by repeat case_match. Qed.
Lemma reads_only_cuda_is_available : reads_only torch_cuda_is_available.
Proof. done. Qed.

Lemma reads_only_the (x : string) {A} (the : Value → Py A) :
  (∀ v, reads_only (the v)) → reads_only (name x ≫= the).
Proof. intros H. apply reads_only_bind; [apply reads_only_name | done]. Qed.

Lemma keeps_assign x y v : x ≠ y → frame (keeps y) (assign x v).
Proof. intros Hxy s. unfold keeps, assign. cbn. by rewrite lookup_insert_ne. Qed.
Lemma same_fs_assign x v : frame same_fs (assign x v).
Proof. done. Qed.
Lemma same_figures_assign x v : frame same_figures (assign x v).
Proof. done. Qed.
Lemma keeps_on_current y f : frame (keeps y) (on_current f).
Proof. done. Qed.
Lemma same_fs_on_current f : frame same_fs (on_current f).
Proof. done. Qed.
Lemma keeps_plt_figure y size : frame (keeps y) (plt_figure size).
Proof. done. Qed.
Lemma keeps_plt_imshow y im : frame (keeps y) (plt_imshow im).
Proof. intros s. unfold plt_imshow. by destruct (imshow_accepts im). Qed.
Lemma same_fs_plt_imshow im : frame same_fs (plt_imshow im).
Proof. intros s. unfold plt_imshow. by destruct (imshow_accepts im). Qed.
Lemma same_fs_plt_figure size : frame same_fs (plt_figure size).
Proof. done. Qed.
Lemma keeps_set_device y d : frame (keeps y) (torch_cuda_set_device d).
Proof. intros s. unfold torch_cuda_set_device. by destruct d. Qed.
Lemma same_fs_set_device d : frame same_fs (torch_cuda_set_device d).
Proof. intros s. unfold torch_cuda_set_device. by destruct d. Qed.
Lemma same_figures_set_device d : frame same_figures (torch_cuda_set_device d).
Proof. intros s. unfold torch_cuda_set_device. by destruct d. Qed.
Lemma keeps_shell y cmd : frame (keeps y) (shell cmd).
Proof. done. Qed.
Lemma same_figures_shell cmd : frame same_figures (shell cmd).
Proof. done. Qed.

Create HintDb frame discriminated.

#[local] Hint Resolve reads_only_name reads_only_lift reads_only_np_load
  reads_only_cuda_is_available : frame.
#[local] Hint Resolve same_fs_assign same_figures_assign keeps_on_current
  same_fs_on_current keeps_plt_figure same_fs_plt_figure keeps_plt_imshow
  same_fs_plt_imshow keeps_set_device
  same_fs_set_device same_figures_set_device keeps_shell
  same_figures_shell : frame.

(** Decompose a cell into its statements and close each with the hints. *)
Ltac reads_step :=
  first
    [ apply reads_only_bind; [ | intros]
    | solve [unfold the_device, the_str, the_tensor, the_pointclouds,
               the_rotation, the_translation, the_cameras, the_settings,
               the_renderer, the_images, the_loaded; auto with frame]
    | case_match ].
Ltac frame_step :=
  first
    [ apply frame_bind; [tc_solve | | intros]
    | apply keeps_assign; done
    | solve [unfold plt_grid, plt_axis; auto with frame]
    | apply frame_reads_only; [tc_solve | solve [repeat reads_step]]
    | case_match ].
Ltac frame_solve := intros; repeat frame_step.

(** [x ∉ [a; b; ...]] for a literal [x]. *)
Ltac not_listed :=
  let H := fresh in
  intros H;
  repeat (apply elem_of_cons in H as [H | H]; [discriminate H |]);
  by apply elem_of_nil in H.

(** *** What each cell leaves alone *)

Lemma keeps_cell_render x : x ≠ "images" → frame (keeps x) (cell_render lib).
Proof. unfold cell_render. frame_solve. Qed.

Lemma keeps_cell_renderer_alpha x :
  x ∉ ["R"; "T"; "cameras"; "raster_settings"; "renderer"] →
  frame (keeps x) (cell_renderer_alpha lib).
Proof.
  intros Hx. unfold cell_renderer_alpha.
  destruct (look_at_view_transform lib 20 10 0) as [R T].
  frame_solve; apply keeps_assign; intros <-; apply Hx; set_solver.
Qed.

Lemma keeps_cell_renderer_norm x :
  x ∉ ["R"; "T"; "cameras"; "raster_settings"; "renderer"] →
  frame (keeps x) (cell_renderer_norm lib).
Proof.
  intros Hx. unfold cell_renderer_norm.
  destruct (look_at_view_transform lib 20 10 0) as [R T].
  frame_solve; apply keeps_assign; intros <-; apply Hx; set_solver.
Qed.


Lemma same_figures_cell_load : frame same_figures (cell_load lib).
Proof.
  unfold cell_load, setup_device, load_arrays, build_point_cloud. frame_solve.
Qed.





Lemma keeps_load_device (s : State) : keeps "device" s (load_arrays lib s).1.
Proof. revert s. change (frame (keeps "device") (load_arrays lib)).
  unfold load_arrays. frame_solve.
Qed.

(** *** The shell tools *)

Example join_obj_filename :
  os_path_join "./data" "PittsburghBridge/pointcloud.npz"
  = "./data/PittsburghBridge/pointcloud.npz".
Proof. reflexivity. Qed.

Example fetch_target :
  resolve "data/PittsburghBridge" +:+ "/" +:+ basename "" data_url
  = resolve (os_path_join "./data" "PittsburghBridge/pointcloud.npz").
Proof. reflexivity. Qed.

Example prefixes_data_dir :
  path_prefixes "" "data/PittsburghBridge" = ["data"; "data/PittsburghBridge"].
Proof. reflexivity. Qed.


Lemma make_directories_kept ps f : entries_kept f (make_directories ps f).
Proof.
  revert f. induction ps as [| p ps IH]; intros f; simpl; [done |].
  destruct (f !! p) as [[| c] |] eqn:Hp; [apply IH | done |].
  etrans; [| apply IH].
  intros q e Hq. rewrite lookup_insert_ne; [done |].
  intros ->. congruence.
Qed.

Lemma unique_name_free fuel n base f x :
  unique_name fuel n base f = Some x → f !! x = None.
Proof.
  revert n. induction fuel as [| fuel IH]; intros n; simpl; [done |].
  destruct (f !! (base +:+ "." +:+ pretty n)) eqn:Hc; [apply IH |].
  by intros [= <-].
Qed.

Lemma free_name_free base f x : free_name base f = Some x → f !! x = None.
Proof.
  unfold free_name. destruct (f !! base) eqn:Hb.
  - apply unique_name_free.
  - by intros [= <-].
Qed.

(** When the search gives up, every candidate it tried is taken. *)
Lemma unique_name_None fuel n base f :
  unique_name fuel n base f = None →
  ∀ i, (n ≤ i < n + fuel)%nat → is_Some (f !! (base +:+ "." +:+ pretty i)).
Proof.
  revert n. induction fuel as [| fuel IH]; intros n Hn i Hi; [lia |].
  simpl in Hn. destruct (f !! (base +:+ "." +:+ pretty n)) eqn:Hc; [| done].
  destruct (decide (i = n)) as [-> | Hne]; [by rewrite Hc |].
  apply (IH (S n)); [done | lia].
Qed.

(** The fuel of [free_name] is enough: a finite file system cannot hold
    more suffixed names than it has entries. *)
Lemma free_name_total base f : is_Some (free_name base f).
Proof.
  unfold free_name. destruct (f !! base) eqn:Hb; [| by eexists].
  destruct (unique_name (S (size f)) 1 base f) as [x |] eqn:Hu; [by eexists |].
  exfalso.
  pose proof (unique_name_None _ _ _ _ Hu) as Hall.
  set (candidate := λ i : nat, base +:+ "." +:+ pretty i).
  assert (Inj (=) (=) candidate) as Hinj.
  { intros i j Hij. unfold candidate in Hij.
    apply (inj (String.app base)) in Hij.
    apply (inj (String.app ".")) in Hij.
    by apply (inj pretty) in Hij. }
  set (tried := candidate <$> seq 1 (S (size f))).
  assert (list_to_set (C := gset string) tried ⊆ dom f) as Hsub.
  { intros y Hy. apply elem_of_list_to_set in Hy.
    apply list_elem_of_fmap in Hy as (i & -> & Hi).
    apply elem_of_seq in Hi. apply elem_of_dom, Hall. lia. }
  apply subseteq_size in Hsub.
  rewrite size_list_to_set in Hsub
    by (apply NoDup_fmap_2; [done | apply NoDup_seq]).
  unfold tried in Hsub. rewrite length_fmap, length_seq, size_dom in Hsub.
  lia.
Qed.

Lemma wget_P_kept dir url w : entries_kept (fs w) (fs (wget_P dir url w)).
Proof.
  unfold wget_P.
  destruct (remote w !! url) as [body |]; [| done].
  set (f1 := make_directories _ _).
  assert (entries_kept (fs w) f1) as Hf1 by apply make_directories_kept.
  destruct (f1 !! resolve dir) as [[| c] |]; [| done | done].
  destruct (free_name _ f1) as [x |] eqn:Hx; [| done].
  apply free_name_free in Hx. cbn.
  intros p e Hp. rewrite lookup_insert_ne; [by apply Hf1 |].
  intros ->. apply Hf1 in Hp. congruence.
Qed.

Lemma wget_P_requests dir url w :
  requests (wget_P dir url w) = url :: requests w.
Proof. unfold wget_P. by repeat case_match. Qed.

Lemma files_kept_cell_fetch : frame files_kept (@cell_fetch scalar CompositeParams).
Proof.
  intros s. unfold files_kept, cell_fetch. py_run.
  etrans; [| apply wget_P_kept].
  unfold mkdir_p, with_fs. cbn [fs]. apply make_directories_kept.
Qed.

Lemma requests_cell_fetch (s : State) :
  requests (world (cell_fetch s).1) = data_url :: requests (world s).
Proof. unfold cell_fetch. py_run. by rewrite wget_P_requests. Qed.

(** *** The load cell *)

Lemma obj_filename_target :
  resolve (os_path_join "./data" "PittsburghBridge/pointcloud.npz") = target.
Proof. reflexivity. Qed.

Lemma setup_device_run (s : State) :
  (setup_device s).2 = inr () ∧
  ns (setup_device s).1 = <["device" := VDevice (chosen_device (world s))]> (ns s) ∧
  fs (world (setup_device s).1) = fs (world s) ∧
  figures (setup_device s).1 = figures s.
Proof.
  unfold setup_device, chosen_device. py_run.
  destruct (cuda_available (world s)); py_run; done.
Qed.

Lemma load_arrays_run (s : State) d :
  ns s !! "device" = Some (VDevice d) →
  match read_archive lib (fs (world s)) with
  | inl e => (load_arrays lib s).2 = inl e
  | inr (verts, rgb) =>
      (load_arrays lib s).2 = inr () ∧
      ns (load_arrays lib s).1 !! "verts" = Some (VTensor (mkTensor verts d)) ∧
      ns (load_arrays lib s).1 !! "rgb" = Some (VTensor (mkTensor rgb d))
  end.
Proof.
  intros Hd. unfold read_archive, decode_archive, read_item, load_arrays.
  py_run. unfold np_load. py_run. rewrite obj_filename_target.
  destruct (blocked (fs (world s)) target); py_run; [done |].
  destruct (fs (world s) !! target) as [[| content] |]; py_run; [done | | done].
  destruct (np_sniff lib content) as [loaded |]; py_run; [| done].
  destruct (getitem lib loaded "verts") as [e | item]; py_run; [done |].
  destruct (torch_Tensor lib item) as [e | verts]; py_run; [done |].
  destruct (getitem lib loaded "rgb") as [e | item']; py_run; [done |].
  destruct (torch_Tensor lib item') as [e | rgb]; py_run; [done |].
  done.
Qed.

Lemma run_bind {A B} (c : Py A) (k : A → Py B) (s : State) :
  (c ≫= k) s = match c s with
               | (s1, inr a) => k a s1
               | (s1, inl e) => (s1, inl e)
               end.
Proof. reflexivity. Qed.

Lemma Pointclouds_init_single (verts rgb : Tensor) :
  Pointclouds_init [verts] [rgb]
  = if bool_decide (len verts = len rgb)
    then inr (mkPointclouds [verts] [rgb]) else inl ValueError.
Proof.
  unfold Pointclouds_init.
  rewrite (bool_decide_ext _ (len verts = len rgb)); [done |].
  split; [by inversion 1 | by repeat constructor].
Qed.

Lemma build_point_cloud_run (s : State) verts rgb :
  ns s !! "verts" = Some (VTensor verts) →
  ns s !! "rgb" = Some (VTensor rgb) →
  if bool_decide (len verts = len rgb)
  then (build_point_cloud s).2 = inr () ∧
       ns (build_point_cloud s).1
       = <["point_cloud" := VPointclouds (mkPointclouds [verts] [rgb])]> (ns s)
  else (build_point_cloud s).2 = inl ValueError.
Proof.
  intros Hv Hc. unfold build_point_cloud. py_run.
  rewrite Pointclouds_init_single.
  destruct (bool_decide (len verts = len rgb)); py_run; done.
Qed.

(** The whole load cell, as a function of the world it starts in. *)
Lemma cell_load_run (s : State) :
  let d := chosen_device (world s) in
  match read_archive lib (fs (world s)) with
  | inl e => (cell_load lib s).2 = inl e
  | inr (verts, rgb) =>
      if bool_decide (length verts = length rgb)
      then (cell_load lib s).2 = inr () ∧
           ns (cell_load lib s).1 !! "device" = Some (VDevice d) ∧
           ns (cell_load lib s).1 !! "verts" = Some (VTensor (mkTensor verts d)) ∧
           ns (cell_load lib s).1 !! "rgb" = Some (VTensor (mkTensor rgb d)) ∧
           ns (cell_load lib s).1 !! "point_cloud"
           = Some (VPointclouds
                     (mkPointclouds [mkTensor verts d] [mkTensor rgb d]))
      else (cell_load lib s).2 = inl ValueError
  end.
Proof.
  intros d. unfold cell_load. rewrite run_bind.
  destruct (setup_device_run s) as (Hok & Hns & Hfs & _).
  destruct (setup_device s) as [s1 [e | []]]; simpl in *; [done |].
  rewrite run_bind.
  assert (ns s1 !! "device" = Some (VDevice d)) as Hd
    by (rewrite Hns; apply lookup_insert_eq).
  pose proof (load_arrays_run s1 d Hd) as Hload. rewrite Hfs in Hload.
  pose proof (keeps_load_device s1) as Hkeep. unfold keeps in Hkeep.
  destruct (read_archive lib (fs (world s))) as [e | [verts rgb]].
  { destruct (load_arrays lib s1) as [s2 [e' | []]]; simpl in *; congruence. }
  destruct Hload as (Hok2 & Hv & Hc).
  destruct (load_arrays lib s1) as [s2 [e' | []]]; simpl in *; [done |].
  pose proof (build_point_cloud_run s2 _ _ Hv Hc) as Hb.
  unfold len in Hb. simpl in Hb.
  destruct (bool_decide (length verts = length rgb)); [| done].
  destruct Hb as (Hok3 & Hns3). rewrite Hns3.
  rewrite lookup_insert_eq, !lookup_insert_ne by done.
  repeat split; congruence.
Qed.

(** *** The renderer cells and the render cell *)

Lemma cell_renderer_alpha_run (s : State) d :
  ns s !! "device" = Some (VDevice d) →
  cell_renderer_alpha lib s
  = (mkState (assembled lib d (AlphaCompositor None) (ns s)) (world s) (figures s),
     inr ()).
Proof.
  intros Hd. unfold cell_renderer_alpha, assembled, notebook_cameras.
  destruct (look_at_view_transform lib 20 10 0) as [R T]. by py_run.
Qed.

Lemma cell_renderer_norm_run (s : State) d :
  ns s !! "device" = Some (VDevice d) →
  cell_renderer_norm lib s
  = (mkState (assembled lib d (NormWeightedCompositor None) (ns s)) (world s)
             (figures s),
     inr ()).
Proof.
  intros Hd. unfold cell_renderer_norm, assembled, notebook_cameras.
  destruct (look_at_view_transform lib 20 10 0) as [R T]. by py_run.
Qed.

Lemma camera_bound_assembled d c (m : gmap string Value) w figs :
  m !! "device" = Some (VDevice d) →
  camera_bound lib d (mkState (assembled lib d c m) w figs).
Proof.
  intros Hd. unfold camera_bound, assembled. cbn [ns].
  rewrite !lookup_insert_ne by done.
  repeat split; by repeat first [rewrite lookup_insert_eq | rewrite lookup_insert_ne by done].
Qed.

Lemma cell_render_run (s : State) r pc :
  ns s !! "renderer" = Some (VRenderer r) →
  ns s !! "point_cloud" = Some (VPointclouds pc) →
  cell_render lib s
  = match first_shown (PointsRenderer_call lib r pc) with
    | inr im =>
        (mkState (<["images" := VImages (PointsRenderer_call lib r pc)]> (ns s))
                 (world s)
                 (mkFigure (Some (10, 10)) [im] (Some "off") (Some "off")
                    :: figures s),
         inr ())
    | inl e =>
        (mkState (<["images" := VImages (PointsRenderer_call lib r pc)]> (ns s))
                 (world s)
                 (mkFigure (Some (10, 10)) [] None None :: figures s),
         inl e)
    end.
Proof.
  intros Hr Hpc. unfold cell_render, first_shown. py_run.
  destruct (first_image_rgb (PointsRenderer_call lib r pc)) as [e | im];
    [by py_run |].
  py_run. destruct (imshow_accepts im); by py_run.
Qed.

Lemma elem_of_two {A} (x a b : A) : x ∈ [a; b] → x = a ∨ x = b.
Proof.
  intros H. apply elem_of_cons in H as [-> | H]; [by left |].
  apply list_elem_of_singleton in H as ->. by right.
Qed.

Lemma elem_of_three {A} (x a b c : A) : x ∈ [a; b; c] → x = a ∨ x = b ∨ x = c.
Proof.
  intros H. apply elem_of_cons in H as [-> | H]; [by left |].
  right. by apply elem_of_two.
Qed.

Lemma cell_render_lookup x (s : State) :
  x ≠ "images" → ns (cell_render lib s).1 !! x = ns s !! x.
Proof. intros Hx. exact (keeps_cell_render x Hx s). Qed.

Lemma cell_renderer_norm_lookup x (s : State) :
  x ∉ ["R"; "T"; "cameras"; "raster_settings"; "renderer"] →
  ns (cell_renderer_norm lib s).1 !! x = ns s !! x.
Proof. intros Hx. exact (keeps_cell_renderer_norm x Hx s). Qed.

Lemma cell_renderer_alpha_lookup x (s : State) :
  x ∉ ["R"; "T"; "cameras"; "raster_settings"; "renderer"] →
  ns (cell_renderer_alpha lib s).1 !! x = ns s !! x.
Proof. intros Hx. exact (keeps_cell_renderer_alpha x Hx s). Qed.

Lemma camera_bound_cell_render d (t : State) :
  camera_bound lib d t → camera_bound lib d (cell_render lib t).1.
Proof.
  intros (Hd & HR & HT & Hc). unfold camera_bound.
  by rewrite !cell_render_lookup by done.
Qed.

Lemma camera_bound_cell_renderer_norm d (t : State) :
  camera_bound lib d t → camera_bound lib d (cell_renderer_norm lib t).1.
Proof.
  intros (Hd & _). rewrite (cell_renderer_norm_run t d Hd).
  by apply camera_bound_assembled.
Qed.

Lemma cell_load_ok (s : State) :
  (cell_load lib s).2 = inr () →
  ∃ verts rgb : ndarray,
    read_archive lib (fs (world s)) = inr (verts, rgb) ∧
    length verts = length rgb ∧
    ns (cell_load lib s).1 !! "verts"
    = Some (VTensor (mkTensor verts (chosen_device (world s)))) ∧
    ns (cell_load lib s).1 !! "rgb"
    = Some (VTensor (mkTensor rgb (chosen_device (world s)))) ∧
    ns (cell_load lib s).1 !! "point_cloud"
    = Some (VPointclouds
              (mkPointclouds [mkTensor verts (chosen_device (world s))]
                             [mkTensor rgb (chosen_device (world s))])).
Proof.
  intros Hok. pose proof (cell_load_run s) as Hrun. cbv zeta in Hrun.
  destruct (read_archive lib (fs (world s))) as [e | [verts rgb]];
    [congruence |].
  case_bool_decide as Hlen; [| congruence].
  destruct Hrun as (_ & _ & Hv & Hc & Hpc). by exists verts, rgb.
Qed.

(** *** Rendered images *)

Lemma resolution_render_cloud (r : PointsRenderer) (p f : Tensor) :
  resolution (Z.to_nat (image_size (raster_settings (rasterizer r))))
             (render_cloud lib r p f).
Proof.
  unfold resolution, render_cloud. split.
  - by rewrite length_fmap, length_seqZ.
  - apply Forall_fmap, Forall_forall. intros y _. cbn.
    by rewrite length_fmap, length_seqZ.
Qed.

Lemma Forall_zip_with_all {A B C} (P : C → Prop) (f : A → B → C) l k :
  (∀ a b, P (f a b)) → Forall P (zip_with f l k).
Proof.
  intros Hf. revert k. induction l as [| a l IH]; intros [| b k]; simpl;
    constructor; auto.
Qed.

Lemma resolution_call (r : PointsRenderer) (pc : Pointclouds) :
  Forall (resolution (Z.to_nat (image_size (raster_settings (rasterizer r)))))
         (batch (PointsRenderer_call lib r pc)).
Proof.
  unfold PointsRenderer_call. cbn [batch].
  apply Forall_zip_with_all. intros p f. apply resolution_render_cloud.
Qed.

(** Cutting the channels keeps the resolution and leaves at most three
    channels per pixel. *)
Lemma resolution_rgb n (im : Image) :
  resolution n im → resolution n (first_three_channels im).
Proof.
  intros [Hrows Hcols]. unfold first_three_channels.
  split; [by rewrite length_fmap |].
  apply Forall_fmap. eapply Forall_impl; [exact Hcols |].
  intros row Hrow. cbn. by rewrite length_fmap.
Qed.


Lemma call_single (r : PointsRenderer) (p f : Tensor) :
  batch (PointsRenderer_call lib r (mkPointclouds [p] [f]))
  = [render_cloud lib r p f].
Proof. reflexivity. Qed.

Lemma cell_render_outcome (s : State) :
  (cell_render lib s).2
  = match render_inputs (ns s) with
    | inl e => inl e
    | inr (r, pc) =>
        match first_shown (PointsRenderer_call lib r pc) with
        | inl e => inl e
        | inr _ => inr ()
        end
    end.
Proof.
  unfold render_inputs.
  destruct (ns s !! "renderer") as [vr |] eqn:Hr;
    [| by unfold cell_render; py_run].
  destruct (ns s !! "point_cloud") as [vp |] eqn:Hp;
    [| by unfold cell_render; py_run].
  destruct vr as [| | | | | | | | | r |];
    try by (unfold cell_render; py_run; destruct vp).
  destruct vp as [| | | | pc | | | | | |]; try by (unfold cell_render; py_run).
  rewrite (cell_render_run s r pc Hr Hp).
  by destruct (first_shown (PointsRenderer_call lib r pc)).
Qed.

Lemma render_inputs_inr (m : gmap string Value) r pc :
  render_inputs m = inr (r, pc) →
  m !! "renderer" = Some (VRenderer r) ∧
  m !! "point_cloud" = Some (VPointclouds pc).
Proof.
  unfold render_inputs. intros H.
  repeat case_match; simplify_eq. done.
Qed.






Lemma read_archive_open (f : gmap string Entry) content :
  blocked f target = false →
  f !! target = Some (RegularFile content) →
  read_archive lib f = decode_archive lib content.
Proof. intros Hb Hf. unfold read_archive. by rewrite Hb, Hf. Qed.




Lemma keeps_cell_load x :
  x ∉ ["device"; "DATA_DIR"; "obj_filename"; "pointcloud"; "verts"; "rgb";
       "point_cloud"] →
  frame (keeps x) (cell_load lib).
Proof.
  intros Hx. unfold cell_load, setup_device, load_arrays, build_point_cloud.
  frame_solve; apply keeps_assign; intros <-; apply Hx; set_solver.
Qed.

Lemma run_pipeline_load_fails (s : State) e :
  (cell_load lib s).2 = inl e → run_pipeline lib s = cell_load lib s.
Proof.
  intros H. unfold run_pipeline. rewrite run_bind.
  by destruct (cell_load lib s) as [s1 [e' | []]].
Qed.

Lemma data_directory_prefixes :
  path_prefixes "" (resolve "data/PittsburghBridge")
  = ["data"; "data/PittsburghBridge"].
Proof. reflexivity. Qed.

Lemma data_directory : resolve "data/PittsburghBridge" = "data/PittsburghBridge".
Proof. reflexivity. Qed.

Lemma make_data_directories (f : gmap string Entry) :
  directory_or_free f "data" →
  directory_or_free f "data/PittsburghBridge" →
  ∃ f1, make_directories ["data"; "data/PittsburghBridge"] f = f1 ∧
        f1 !! "data" = Some Directory ∧
        f1 !! "data/PittsburghBridge" = Some Directory ∧
        f1 !! target = f !! target.
Proof.
  intros [Ha | Ha] [Hb | Hb]; eexists; (split; [reflexivity |]); cbn;
    rewrite Ha; repeat (rewrite ?lookup_insert_ne by done; rewrite ?Hb);
    repeat split;
    by repeat first [rewrite lookup_insert_eq | rewrite lookup_insert_ne by done].
Qed.

(** *** The claims *)

(** C8: the camera pose is built from distance 20, elevation 10 and
    azimuth 0 as the rotation-translation pair of [look_at_view_transform],
    with znear 0.01; after the first renderer cell the variables [R], [T]
    and [cameras] hold that pose, and every later cell leaves them holding
    it (the render cell does not assign them, the second renderer cell
    assigns the same values again). *)
Theorem camera_pose_fixed (s : State) d :
  ns s !! "device" = Some (VDevice d) →
  camera_bound lib d (cell_renderer_alpha lib s).1 ∧
  (cam_R (notebook_cameras lib d), cam_T (notebook_cameras lib d))
  = look_at_view_transform lib 20 10 0 ∧
  znear (notebook_cameras lib d) = 1 # 100 ∧
  ∀ (c : Py ()) (t : State),
    c ∈ [cell_render lib; cell_renderer_norm lib] →
    camera_bound lib d t → camera_bound lib d (c t).1.
Proof.
  intros Hd. split; [| split; [| split]].
  - rewrite (cell_renderer_alpha_run s d Hd). by apply camera_bound_assembled.
  - unfold notebook_cameras. cbn [cam_R cam_T].
    by destruct (look_at_view_transform lib 20 10 0).
  - reflexivity.
  - intros c t Hc Ht. apply elem_of_two in Hc as [-> | ->].
    + by apply camera_bound_cell_render.
    + by apply camera_bound_cell_renderer_norm.
Qed.

(** C9: run in the order of the notebook, the two renderer cells build
    renderers with the same rasterizer (the camera of distance 20,
    elevation 10, azimuth 0 and znear 0.01, and the settings image_size
    512, radius 0.003, points_per_pixel 10); they differ in the compositor
    only, and the point cloud the second render call reads is the one the
    first read. *)
Theorem renderers_differ_in_compositor_only (s : State) d :
  ns s !! "device" = Some (VDevice d) →
  let s1 := (cell_renderer_alpha lib s).1 in
  let s2 := (cell_render lib s1).1 in
  let s3 := (cell_renderer_norm lib s2).1 in
  ∃ r1 r2 : PointsRenderer,
    ns s1 !! "renderer" = Some (VRenderer r1) ∧
    ns s3 !! "renderer" = Some (VRenderer r2) ∧
    rasterizer r1 = rasterizer r2 ∧
    cameras (rasterizer r1) = notebook_cameras lib d ∧
    raster_settings (rasterizer r1) = mkSettings 512 (3 # 1000) 10 ∧
    compositor r1 = AlphaCompositor None ∧
    compositor r2 = NormWeightedCompositor None ∧
    ns s3 !! "point_cloud" = ns s1 !! "point_cloud".
Proof.
  intros Hd s1 s2 s3.
  assert (ns s2 !! "device" = Some (VDevice d)) as Hd2.
  { unfold s2. rewrite cell_render_lookup by done.
    unfold s1. rewrite (cell_renderer_alpha_run s d Hd).
    by apply camera_bound_assembled. }
  eexists _, _. split; [| split].
  - unfold s1. rewrite (cell_renderer_alpha_run s d Hd). apply lookup_insert_eq.
  - unfold s3. rewrite (cell_renderer_norm_run s2 d Hd2). apply lookup_insert_eq.
  - repeat split.
    unfold s3. rewrite cell_renderer_norm_lookup by not_listed.
    unfold s2. by rewrite cell_render_lookup.
Qed.

(** C2: a render with the settings of the notebook (image_size 512, radius
    0.003, points_per_pixel 10) binds [images] to the batch the renderer
    returns: one image for every cloud of the batch, each of 512 rows of
    512 pixels.  For a batch of one cloud, as the notebook builds it, the
    batch is one such image; the cell completes exactly when [imshow]
    takes that image cut to three channels, and the figure then shows it,
    still 512 rows of 512 pixels. *)
Theorem render_resolution (s : State) (r : PointsRenderer) (pc : Pointclouds) :
  ns s !! "renderer" = Some (VRenderer r) →
  ns s !! "point_cloud" = Some (VPointclouds pc) →
  raster_settings (rasterizer r) = mkSettings 512 (3 # 1000) 10 →
  ∃ imgs : Images,
    ns (cell_render lib s).1 !! "images" = Some (VImages imgs) ∧
    imgs = PointsRenderer_call lib r pc ∧
    length (batch imgs)
    = min (length (points_list pc)) (length (features_list pc)) ∧
    Forall (resolution 512) (batch imgs) ∧
    (∀ fig, head (figures (cell_render lib s).1) = Some fig →
            Forall (resolution 512) (shown fig)) ∧
    ∀ p f,
      points_list pc = [p] → features_list pc = [f] →
      ∃ im : Image,
        batch imgs = [im] ∧
        resolution 512 im ∧
        resolution 512 (first_three_channels im) ∧
        ((cell_render lib s).2 = inr ()
         ↔ imshow_accepts (first_three_channels im) = true) ∧
        ((cell_render lib s).2 = inr () →
         head (figures (cell_render lib s).1)
         = Some (mkFigure (Some (10, 10)) [first_three_channels im]
                          (Some "off") (Some "off"))).
Proof.
  intros Hr Hpc Hset. exists (PointsRenderer_call lib r pc).
  pose proof (resolution_call r pc) as Hres. rewrite Hset in Hres.
  change (Z.to_nat (image_size (mkSettings 512 (3 # 1000) 10)))
    with 512%nat in Hres.
  rewrite (cell_render_run s r pc Hr Hpc).
  split; [| split; [done |]; split; [| split; [done |]; split]].
  - destruct (first_shown (PointsRenderer_call lib r pc));
      cbn [fst ns]; apply lookup_insert_eq.
  - unfold PointsRenderer_call. cbn [batch]. apply length_zip_with.
  - unfold first_shown, first_image_rgb.
    destruct (batch (PointsRenderer_call lib r pc) !! 0%nat) as [im |] eqn:Him;
      [| intros fig [= <-]; constructor].
    assert (resolution 512 (first_three_channels im)) as Hcut.
    { apply resolution_rgb. rewrite Forall_forall in Hres. apply Hres.
      by apply list_elem_of_lookup_2 in Him. }
    destruct (imshow_accepts (first_three_channels im));
      intros fig [= <-]; cbn [shown];
      [apply Forall_cons; split; [done | constructor] | constructor].
  - intros p f Hp Hf. exists (render_cloud lib r p f).
    assert (batch (PointsRenderer_call lib r pc) = [render_cloud lib r p f])
      as Hbatch by (unfold PointsRenderer_call; cbn [batch]; by rewrite Hp, Hf).
    rewrite Hbatch in Hres. apply Forall_inv in Hres.
    split; [done |]. split; [done |].
    split; [by apply resolution_rgb |].
    unfold first_shown, first_image_rgb. rewrite Hbatch.
    cbn [lookup list_lookup].
    destruct (imshow_accepts (first_three_channels (render_cloud lib r p f)));
      cbn [fst snd figures head]; (split; [split |]); intros H;
      first [discriminate H | reflexivity].
Qed.



(** C3: when the load cell completes, [verts] and [rgb] hold the two
    arrays of the archive, they have the same length, [point_cloud] pairs
    them by index, and no later cell assigns any of the three variables. *)
Theorem point_cloud_index_correspondence (s : State) :
  (cell_load lib s).2 = inr () →
  ∃ verts rgb : Tensor,
    ns (cell_load lib s).1 !! "verts" = Some (VTensor verts) ∧
    ns (cell_load lib s).1 !! "rgb" = Some (VTensor rgb) ∧
    ns (cell_load lib s).1 !! "point_cloud"
    = Some (VPointclouds (mkPointclouds [verts] [rgb])) ∧
    read_archive lib (fs (world s)) = inr (data verts, data rgb) ∧
    len verts = len rgb ∧
    ∀ (c : Py ()) x,
      c ∈ later_cells lib → x ∈ ["verts"; "rgb"; "point_cloud"] →
      frame (keeps x) c.
Proof.
  intros Hok.
  destruct (cell_load_ok s Hok) as (verts & rgb & Hread & Hlen & Hv & Hc & Hpc).
  eexists _, _. split; [exact Hv |]. split; [exact Hc |].
  split; [exact Hpc |]. split; [exact Hread |]. split; [exact Hlen |].
  intros c x Hc' Hx.
  apply elem_of_three in Hc' as [-> | [-> | ->]];
    apply elem_of_three in Hx as [-> | [-> | ->]];
    first [ by apply keeps_cell_render
          | apply keeps_cell_renderer_alpha; not_listed
          | apply keeps_cell_renderer_norm; not_listed ].
Qed.

(** C1: the image a render cell produces is a function of the renderer
    (camera, settings and compositor) and the point cloud alone: from two
    kernel states that agree on the variables [renderer] and [point_cloud],
    whatever else they hold (other variables, file system, server, CUDA
    state, figures), the cell ends the same way and, when it completes,
    binds [images] to the same batch and shows the same image; the batch is
    [PointsRenderer_call] of the two inputs. *)
Theorem render_is_pure (s1 s2 : State) :
  ns s1 !! "renderer" = ns s2 !! "renderer" →
  ns s1 !! "point_cloud" = ns s2 !! "point_cloud" →
  (cell_render lib s1).2 = (cell_render lib s2).2 ∧
  ((cell_render lib s1).2 = inr () →
   ns (cell_render lib s1).1 !! "images"
   = ns (cell_render lib s2).1 !! "images" ∧
   shown <$> head (figures (cell_render lib s1).1)
   = shown <$> head (figures (cell_render lib s2).1)) ∧
  ∀ (r : PointsRenderer) (pc : Pointclouds),
    ns s1 !! "renderer" = Some (VRenderer r) →
    ns s1 !! "point_cloud" = Some (VPointclouds pc) →
    ns (cell_render lib s1).1 !! "images"
    = Some (VImages (PointsRenderer_call lib r pc)).
Proof.
  intros Hr Hpc.
  assert (render_inputs (ns s1) = render_inputs (ns s2)) as Hin
    by (unfold render_inputs; by rewrite Hr, Hpc).
  split; [by rewrite !cell_render_outcome, Hin |]. split.
  - intros Hok. rewrite cell_render_outcome in Hok.
    destruct (render_inputs (ns s1)) as [e | [r pc]] eqn:H1; [done |].
    symmetry in Hin.
    apply render_inputs_inr in H1 as [Hr1 Hpc1].
    apply render_inputs_inr in Hin as [Hr2 Hpc2].
    rewrite (cell_render_run s1 r pc Hr1 Hpc1), (cell_render_run s2 r pc Hr2 Hpc2).
    destruct (first_shown (PointsRenderer_call lib r pc)); [done |].
    cbn [fst ns figures head fmap option_fmap option_map shown].
    by rewrite !lookup_insert_eq.
  - intros r pc Hr1 Hpc1. rewrite (cell_render_run s1 r pc Hr1 Hpc1).
    destruct (first_shown (PointsRenderer_call lib r pc));
      cbn [fst ns]; apply lookup_insert_eq.
Qed.


(** C5, as amended: a failure of the load (nothing at the path, a file
    that is no archive, a member that is missing or does not decode) ends
    the run with the exception the load raised, nothing is rendered or
    shown; an unavailable CUDA device is no failure: the setup completes
    and binds [device] to the CPU. *)
Theorem load_failure_propagates (s : State) :
  (∀ e, read_archive lib (fs (world s)) = inl e →
        (run_pipeline lib s).2 = inl e ∧
        figures (run_pipeline lib s).1 = figures s ∧
        ns (run_pipeline lib s).1 !! "images" = ns s !! "images" ∧
        ns (run_pipeline lib s).1 !! "renderer" = ns s !! "renderer") ∧
  (cuda_available (world s) = false →
   (setup_device s).2 = inr () ∧
   ns (setup_device s).1 !! "device" = Some (VDevice Cpu)).
Proof.
  split.
  - intros e He. pose proof (cell_load_run s) as Hrun. cbv zeta in Hrun.
    rewrite He in Hrun. rewrite (run_pipeline_load_fails s e Hrun).
    split; [done |]. split; [apply same_figures_cell_load |].
    split; apply keeps_cell_load; not_listed.
  - intros Hcuda. destruct (setup_device_run s) as (Hok & Hns & _).
    split; [done |]. rewrite Hns, lookup_insert_eq.
    unfold chosen_device. by rewrite Hcuda.
Qed.

(** C6, as amended: the fetch cell asks the server for the archive in
    every state, whether or not a file is at the target path; what is at
    the target path before the cell is still there after it.  When the
    server answers and the data directory exists or can be made, the
    answer is stored: at the target path when nothing is there, and at a
    path that was free when something is. *)
Theorem fetch_requests_always (s : State) :
  requests (world (cell_fetch s).1) = data_url :: requests (world s) ∧
  (∀ e, fs (world s) !! target = Some e →
        fs (world (cell_fetch s).1) !! target = Some e) ∧
  (∀ body,
     remote (world s) !! data_url = Some body →
     directory_or_free (fs (world s)) "data" →
     directory_or_free (fs (world s)) "data/PittsburghBridge" →
     (fs (world s) !! target = None →
      fs (world (cell_fetch s).1) !! target = Some (RegularFile body)) ∧
     (is_Some (fs (world s) !! target) →
      ∃ other,
        fs (world s) !! other = None ∧
        fs (world (cell_fetch s).1) !! other = Some (RegularFile body))).
Proof.
  split; [apply requests_cell_fetch |]. split.
  - intros e He. by apply (files_kept_cell_fetch s).
  - intros body Hbody Ha Hb.
    destruct (make_data_directories _ Ha Hb) as (f1 & Hf1 & Hda & Hdb & Ht).
    assert (make_directories ["data"; "data/PittsburghBridge"] f1 = f1) as Hagain
      by (cbn; by rewrite Hda, Hdb).
    assert (entries_kept (fs (world s)) f1) as Hkept
      by (rewrite <- Hf1; apply make_directories_kept).
    unfold cell_fetch. py_run.
    unfold wget_P, mkdir_p, with_fs, with_request.
    cbn [fs remote requests cuda_available cuda_current].
    rewrite Hbody, data_directory_prefixes, data_directory, Hf1, Hagain, Hdb.
    change ("data/PittsburghBridge" +:+ "/" +:+ basename "" data_url)
      with target.
    split.
    + intros Hnone. unfold free_name. rewrite Ht, Hnone. cbn [fs].
      apply lookup_insert_eq.
    + intros _. destruct (free_name_total target f1) as [other Hother].
      rewrite Hother. cbn [fs]. exists other. split; [| apply lookup_insert_eq].
      apply free_name_free in Hother.
      destruct (fs (world s) !! other) as [e |] eqn:He; [| done].
      apply Hkept in He. congruence.
Qed.


(** *** Further properties of the cells *)

Local Abbreviation same_world := (@same_world scalar CompositeParams).

Lemma assembled_lookup_other d c (m : gmap string Value) x :
  x ∉ ["R"; "T"; "cameras"; "raster_settings"; "renderer"] →
  assembled lib d c m !! x = m !! x.
Proof.
  intros Hx. unfold assembled.
  rewrite !lookup_insert_ne; [done | | | | |];
    intros <-; apply Hx; repeat first [by left | right].
Qed.

Lemma assembled_assembled d c1 c2 (m : gmap string Value) :
  assembled lib d c2 (assembled lib d c1 m) = assembled lib d c2 m.
Proof.
  apply map_eq. intros x. unfold assembled.
  rewrite !lookup_insert. by repeat case_decide.
Qed.

(** X1: a render cell that cannot make its call has no effect at all.  In
    [renderer(point_cloud)] both names are read first: with [renderer]
    unbound the cell raises NameError for [renderer]; with [renderer] bound
    to anything and [point_cloud] unbound it raises NameError for
    [point_cloud]; and whenever the two variables do not hold a renderer
    and a point cloud the cell fails with no variable assigned and no
    figure opened. *)
Theorem render_without_inputs (s : State) :
  (ns s !! "renderer" = None →
   cell_render lib s = (s, inl (NameError "renderer"))) ∧
  (is_Some (ns s !! "renderer") → ns s !! "point_cloud" = None →
   cell_render lib s = (s, inl (NameError "point_cloud"))) ∧
  (∀ e, render_inputs (ns s) = inl e →
        (cell_render lib s).1 = s ∧ (cell_render lib s).2 ≠ inr ()).
Proof.
  split; [| split].
  - intros Hr. unfold cell_render. by py_run.
  - intros [callee Hr] Hp. unfold cell_render. by py_run.
  - unfold render_inputs. intros e He.
    destruct (ns s !! "renderer") as [vr |] eqn:Hr;
      [| unfold cell_render; by py_run].
    destruct (ns s !! "point_cloud") as [vp |] eqn:Hp;
      [| unfold cell_render; by py_run].
    destruct vr, vp; try discriminate He; unfold cell_render; by py_run.
Qed.

(** X2: a renderer cell run before the load cell (the variable [device] is
    unbound) raises NameError for [device] after it has already bound [R]
    and [T]; [cameras], [raster_settings] and [renderer] are not assigned,
    and neither the world nor the figures change. *)
Theorem renderer_cell_before_load (s : State) (cell : Py ()) :
  ns s !! "device" = None →
  cell ∈ [cell_renderer_alpha lib; cell_renderer_norm lib] →
  cell s = (mkState (pose_only lib (ns s)) (world s) (figures s),
            inl (NameError "device")).
Proof.
  intros Hd Hcell. apply elem_of_two in Hcell as [-> | ->].
  - unfold cell_renderer_alpha, pose_only.
    destruct (look_at_view_transform lib 20 10 0) as [R T]. by py_run.
  - unfold cell_renderer_norm, pose_only.
    destruct (look_at_view_transform lib 20 10 0) as [R T]. by py_run.
Qed.

(** X3: with [device] bound, a renderer cell overwrites what the other
    renderer cell (or an earlier run of itself) left: running the second
    renderer cell after the first ends in the same state as running the
    second alone, and the other way round; each cell run twice ends as it
    does run once. *)
Theorem renderer_cells_overwrite (s : State) d :
  ns s !! "device" = Some (VDevice d) →
  cell_renderer_norm lib (cell_renderer_alpha lib s).1
  = cell_renderer_norm lib s ∧
  cell_renderer_alpha lib (cell_renderer_norm lib s).1
  = cell_renderer_alpha lib s ∧
  cell_renderer_alpha lib (cell_renderer_alpha lib s).1
  = cell_renderer_alpha lib s ∧
  cell_renderer_norm lib (cell_renderer_norm lib s).1
  = cell_renderer_norm lib s.
Proof.
  intros Hd.
  assert (∀ c, assembled lib d c (ns s) !! "device" = Some (VDevice d)) as Hd'
    by (intros c; rewrite assembled_lookup_other by not_listed; done).
  rewrite !(cell_renderer_alpha_run s d Hd), !(cell_renderer_norm_run s d Hd).
  cbn [fst].
  rewrite !(cell_renderer_alpha_run _ d) by (cbn [ns]; apply Hd').
  rewrite !(cell_renderer_norm_run _ d) by (cbn [ns]; apply Hd').
  cbn [ns world figures]. by rewrite !assembled_assembled.
Qed.

#[local] Instance same_world_preorder : PreOrder same_world.
Proof. split; unfold same_world; [done | intros s1 s2 s3 H1 H2; congruence]. Qed.

Lemma same_world_assign x v : frame same_world (assign x v).
Proof. done. Qed.
Lemma same_world_on_current f : frame same_world (on_current f).
Proof. done. Qed.
Lemma same_world_plt_figure size : frame same_world (plt_figure size).
Proof. done. Qed.
Lemma same_world_plt_imshow im : frame same_world (plt_imshow im).
Proof. intros s. unfold plt_imshow. by destruct (imshow_accepts im). Qed.

#[local] Hint Resolve same_world_assign same_world_on_current
  same_world_plt_figure same_world_plt_imshow : frame.

Lemma same_world_load_arrays : frame same_world (load_arrays lib).
Proof. unfold load_arrays. frame_solve. Qed.

Lemma same_world_build_point_cloud : frame same_world build_point_cloud.
Proof. unfold build_point_cloud. frame_solve. Qed.

Lemma same_world_cell_renderer_alpha : frame same_world (cell_renderer_alpha lib).
Proof.
  unfold cell_renderer_alpha.
  destruct (look_at_view_transform lib 20 10 0) as [R T]. frame_solve.
Qed.

Lemma same_world_cell_renderer_norm : frame same_world (cell_renderer_norm lib).
Proof.
  unfold cell_renderer_norm.
  destruct (look_at_view_transform lib 20 10 0) as [R T]. frame_solve.
Qed.

Lemma same_world_cell_render : frame same_world (cell_render lib).
Proof. unfold cell_render. frame_solve. Qed.

Lemma setup_device_world (s : State) :
  world (setup_device s).1 = selected (world s).
Proof.
  unfold setup_device, selected. py_run.
  destruct (cuda_available (world s)); by py_run.
Qed.

Lemma keeps_setup_device x : x ≠ "device" → frame (keeps x) setup_device.
Proof. intros Hx. unfold setup_device. frame_solve. Qed.

Lemma keeps_load_arrays_point_cloud :
  frame (keeps "point_cloud") (load_arrays lib).
Proof. unfold load_arrays. frame_solve. Qed.

Lemma build_point_cloud_fails (s : State) e :
  (build_point_cloud s).2 = inl e → (build_point_cloud s).1 = s.
Proof.
  unfold build_point_cloud.
  destruct (ns s !! "verts") as [v |] eqn:Hv; [| by py_run].
  destruct v as [| | | verts | | | | | | |]; try by py_run.
  destruct (ns s !! "rgb") as [c |] eqn:Hc; [| by py_run].
  destruct c as [| | | rgb | | | | | | |]; try by py_run.
  py_run. destruct (Pointclouds_init [verts] [rgb]); by py_run.
Qed.

Lemma cell_load_outcome (s : State) :
  (cell_load lib s).2 = load_result (read_archive lib (fs (world s))).
Proof.
  pose proof (cell_load_run s) as Hrun. cbv zeta in Hrun. unfold load_result.
  destruct (read_archive lib (fs (world s))) as [e | [verts rgb]]; [done |].
  destruct (bool_decide (length verts = length rgb)); [by destruct Hrun | done].
Qed.

(** X4: a load cell that fails, at whatever statement, never rebinds
    [point_cloud]: the variable holds what it held before the cell (a cloud
    loaded earlier stays bound), and no figure changes. *)
Theorem failed_load_keeps_point_cloud (s : State) e :
  (cell_load lib s).2 = inl e →
  ns (cell_load lib s).1 !! "point_cloud" = ns s !! "point_cloud" ∧
  figures (cell_load lib s).1 = figures s.
Proof.
  intros Hfail. split; [| apply same_figures_cell_load].
  revert Hfail. unfold cell_load. rewrite run_bind.
  pose proof (keeps_setup_device "point_cloud" ltac:(done) s) as H1.
  destruct (setup_device s) as [s1 [e1 | []]]; cbn [fst snd] in *; [done |].
  rewrite run_bind.
  pose proof (keeps_load_arrays_point_cloud s1) as H2.
  destruct (load_arrays lib s1) as [s2 [e2 | []]]; cbn [fst snd] in *;
    [intros _; unfold keeps in *; congruence |].
  intros Hfail. rewrite (build_point_cloud_fails s2 e Hfail).
  unfold keeps in *. congruence.
Qed.


Lemma cell_load_world (s : State) :
  world (cell_load lib s).1 = selected (world s).
Proof.
  rewrite <- setup_device_world. unfold cell_load. rewrite run_bind.
  destruct (setup_device s) as [s0 [e0 | []]]; cbn [fst]; [done |].
  rewrite run_bind.
  pose proof (same_world_load_arrays s0) as H1.
  destruct (load_arrays lib s0) as [s1 [e1 | []]]; cbn [fst] in *; [done |].
  pose proof (same_world_build_point_cloud s1) as H2.
  unfold same_world in *. congruence.
Qed.

(** X6: whatever the run does and however it ends, the load, renderer and
    render cells change nothing outside the kernel and the figures except
    that the setup makes CUDA device 0 current when CUDA is available:
    no file is touched and no request is made. *)
Theorem pipeline_world_effect (s : State) :
  world (run_pipeline lib s).1 = selected (world s).
Proof.
  rewrite <- cell_load_world. unfold run_pipeline. rewrite run_bind.
  destruct (cell_load lib s) as [s1 [e1 | []]]; cbn [fst]; [done |].
  assert (frame same_world
            (cell_renderer_alpha lib;; cell_render lib;;
             cell_renderer_norm lib;; cell_render lib)) as Hrest.
  { repeat first
      [ apply same_world_cell_renderer_alpha | apply same_world_cell_render
      | apply same_world_cell_renderer_norm
      | apply frame_bind; [tc_solve | | intros _] ]. }
  exact (Hrest s1).
Qed.

Lemma cell_render_single (t : State) (r : PointsRenderer) (verts rgb : Tensor) :
  ns t !! "renderer" = Some (VRenderer r) →
  ns t !! "point_cloud" = Some (VPointclouds (mkPointclouds [verts] [rgb])) →
  cell_render lib t
  = match show_result lib r verts rgb with
    | inr _ =>
        (mkState (<["images" := VImages (PointsRenderer_call lib r
                                           (mkPointclouds [verts] [rgb]))]>
                    (ns t))
                 (world t) (rendered_figure lib r verts rgb :: figures t),
         inr ())
    | inl e =>
        (mkState (<["images" := VImages (PointsRenderer_call lib r
                                           (mkPointclouds [verts] [rgb]))]>
                    (ns t))
                 (world t)
                 (mkFigure (Some (10, 10)) [] None None :: figures t),
         inl e)
    end.
Proof.
  intros Hr Hpc. rewrite (cell_render_run t r _ Hr Hpc).
  unfold first_shown, first_image_rgb, show_result. rewrite call_single.
  cbn [lookup list_lookup].
  by destruct (imshow_accepts _).
Qed.

Lemma assembled_renderer d c (m : gmap string Value) :
  assembled lib d c m !! "renderer" = Some (VRenderer (notebook_renderer lib d c)).
Proof. unfold assembled. apply lookup_insert_eq. Qed.

Lemma assembled_cameras d c (m : gmap string Value) :
  assembled lib d c m !! "cameras" = Some (VCameras (notebook_cameras lib d)).
Proof.
  unfold assembled. rewrite !lookup_insert_ne by done. apply lookup_insert_eq.
Qed.

(** X7: when the load cell has completed, everything the notebook builds
    lives on one device, the one the setup chose (cuda:0 when CUDA is
    available, the CPU otherwise): the tensors [verts] and [rgb], and the
    camera either renderer cell then builds. *)
Theorem one_device (s : State) :
  (cell_load lib s).2 = inr () →
  ∃ verts rgb : Tensor,
    ns (cell_load lib s).1 !! "verts" = Some (VTensor verts) ∧
    ns (cell_load lib s).1 !! "rgb" = Some (VTensor rgb) ∧
    device verts = chosen_device (world s) ∧
    device rgb = chosen_device (world s) ∧
    ∀ cell : Py (),
      cell ∈ [cell_renderer_alpha lib; cell_renderer_norm lib] →
      (cell (cell_load lib s).1).2 = inr () ∧
      ∃ cam,
        ns (cell (cell_load lib s).1).1 !! "cameras" = Some (VCameras cam) ∧
        cam_device cam = chosen_device (world s).
Proof.
  intros Hok. pose proof (cell_load_run s) as Hrun. cbv zeta in Hrun.
  destruct (read_archive lib (fs (world s))) as [e | [verts rgb]];
    [congruence |].
  destruct (bool_decide (length verts = length rgb)); [| congruence].
  destruct Hrun as (_ & Hd & Hv & Hc & _).
  eexists _, _. split; [exact Hv |]. split; [exact Hc |].
  split; [done |]. split; [done |].
  intros cell Hcell. apply elem_of_two in Hcell as [-> | ->].
  - rewrite (cell_renderer_alpha_run _ _ Hd). split; [done |].
    eexists. split; [apply assembled_cameras | done].
  - rewrite (cell_renderer_norm_run _ _ Hd). split; [done |].
    eexists. split; [apply assembled_cameras | done].
Qed.

(** X8: the run from the load cell on ends as [pipeline_result] says: as
    the load cell ends when that fails; and once the load cell has
    completed, the renderer cells never fail and a render cell fails only
    when [imshow] refuses its image, with a type error.  A completed run
    has opened exactly two figures on top of those that were there, each
    of size 10 by 10 with grid and axis set to "off": first the
    alpha-composited render of the loaded cloud, then the norm-weighted
    render of the same cloud, each cut to three channels. *)
Theorem pipeline_ends_as_load (s : State) :
  (run_pipeline lib s).2 = pipeline_result lib (world s) ∧
  ∀ verts rgb,
    read_archive lib (fs (world s)) = inr (verts, rgb) →
    (run_pipeline lib s).2 = inr () →
    figures (run_pipeline lib s).1
    = rendered_figure lib
        (notebook_renderer lib (chosen_device (world s))
                           (NormWeightedCompositor None))
        (mkTensor verts (chosen_device (world s)))
        (mkTensor rgb (chosen_device (world s)))
      :: rendered_figure lib
           (notebook_renderer lib (chosen_device (world s))
                              (AlphaCompositor None))
           (mkTensor verts (chosen_device (world s)))
           (mkTensor rgb (chosen_device (world s)))
      :: figures s.
Proof.
  pose proof (cell_load_run s) as Hrun. cbv zeta in Hrun.
  pose proof (same_figures_cell_load s) as Hfig. unfold same_figures in Hfig.
  unfold pipeline_result.
  destruct (read_archive lib (fs (world s))) as [e | [verts rgb]].
  { rewrite (run_pipeline_load_fails s e Hrun). split; [done |]. by intros. }
  case_bool_decide as Hlen; cycle 1.
  { rewrite (run_pipeline_load_fails s _ Hrun). split; [done |].
    intros v c _ Hok. congruence. }
  destruct Hrun as (Hok & Hd & _ & _ & Hpc).
  set (d := chosen_device (world s)) in *.
  unfold run_pipeline. rewrite run_bind.
  destruct (cell_load lib s) as [s1 [e1 | []]]; cbn [fst snd] in *; [done |].
  rewrite run_bind, (cell_renderer_alpha_run s1 d Hd).
  rewrite run_bind. erewrite cell_render_single; cycle 1.
  { cbn [ns]. apply assembled_renderer. }
  { cbn [ns]. rewrite assembled_lookup_other by not_listed. exact Hpc. }
  destruct (show_result lib (notebook_renderer lib d (AlphaCompositor None)) _ _)
    as [e | []]; [split; [done | intros v c _ [=]] |].
  rewrite run_bind. rewrite (cell_renderer_norm_run _ d); cycle 1.
  { cbn [ns]. rewrite lookup_insert_ne by done.
    rewrite assembled_lookup_other by not_listed. exact Hd. }
  cbn [ns world figures].
  erewrite cell_render_single; cycle 1.
  { cbn [ns]. apply assembled_renderer. }
  { cbn [ns]. rewrite assembled_lookup_other by not_listed.
    rewrite lookup_insert_ne by done.
    rewrite assembled_lookup_other by not_listed. exact Hpc. }
  destruct (show_result lib (notebook_renderer lib d (NormWeightedCompositor None)) _ _)
    as [e | []]; [split; [done | intros v c _ [=]] |].
  cbn [fst snd figures]. split; [done |].
  intros v c [= <- <-] _. by rewrite Hfig.
Qed.

(** *** Fetch and load together *)

Lemma make_directories_other ps (f : gmap string Entry) p :
  p ∉ ps → make_directories ps f !! p = f !! p.
Proof.
  revert f. induction ps as [| q ps IH]; intros f Hp; [done |].
  apply not_elem_of_cons in Hp as [Hne Hp]. simpl.
  destruct (f !! q) as [[| c] |]; [by apply IH | done |].
  rewrite IH by done. by rewrite lookup_insert_ne.
Qed.

Lemma blocked_target (f : gmap string Entry) :
  blocked f target
  = is_regular (f !! "data") || is_regular (f !! "data/PittsburghBridge").
Proof.
  unfold blocked.
  change (parents target) with ["data"; "data/PittsburghBridge"].
  cbn [existsb]. by rewrite orb_false_r.
Qed.

Lemma read_archive_same (f f' : gmap string Entry) :
  f' !! target = f !! target →
  blocked f' target = blocked f target →
  read_archive lib f' = read_archive lib f.
Proof. intros Hf Hb. unfold read_archive. by rewrite Hf, Hb. Qed.

Lemma make_directories_regular ps (f : gmap string Entry) q :
  is_regular (make_directories ps f !! q) = is_regular (f !! q).
Proof.
  revert f. induction ps as [| p ps IH]; intros f; [done |].
  cbn [make_directories].
  destruct (f !! p) as [[| c] |] eqn:Hp; [apply IH | done |].
  rewrite IH. destruct (decide (p = q)) as [-> | Hne].
  - by rewrite lookup_insert_eq, Hp.
  - by rewrite lookup_insert_ne.
Qed.

Lemma make_directories_head p ps (f : gmap string Entry) :
  is_Some (make_directories (p :: ps) f !! p).
Proof.
  cbn [make_directories].
  destruct (f !! p) as [[| c] |] eqn:Hp.
  - exists Directory. by apply make_directories_kept.
  - by rewrite Hp.
  - exists Directory. apply make_directories_kept, lookup_insert_eq.
Qed.

(** The fetch cell never puts a regular file where the target path needs a
    directory, and never removes one. *)
Lemma fetch_keeps_blocked (s : State) :
  blocked (fs (world (cell_fetch s).1)) target
  = blocked (fs (world s)) target.
Proof.
  rewrite !blocked_target.
  assert (∀ q, q ∈ ["data"; "data/PittsburghBridge"] →
               is_regular (fs (world (cell_fetch s).1) !! q)
               = is_regular (fs (world s) !! q)) as Hq; cycle 1.
  { rewrite !Hq; [done | right; by left | by left]. }
  intros q Hq. unfold cell_fetch. py_run.
  unfold wget_P, mkdir_p, with_fs, with_request.
  cbn [fs remote requests cuda_available cuda_current].
  rewrite data_directory_prefixes, data_directory.
  set (f0 := make_directories _ (fs (world s))).
  assert (is_regular (f0 !! q) = is_regular (fs (world s) !! q)) as H0
    by apply make_directories_regular.
  destruct (remote (world s) !! data_url) as [body |]; [| done].
  set (f1 := make_directories _ f0).
  assert (is_regular (f1 !! q) = is_regular (f0 !! q)) as H1
    by apply make_directories_regular.
  destruct (f1 !! "data/PittsburghBridge") as [[| c] |] eqn:Hd; [| done | done].
  destruct (free_name _ f1) as [name |] eqn:Hname; [| done].
  apply free_name_free in Hname. cbn [fs].
  rewrite lookup_insert_ne; [congruence |].
  intros ->. apply elem_of_two in Hq as [-> | ->]; [| congruence].
  destruct (make_directories_head "data" ["data/PittsburghBridge"] f0) as [e He].
  fold f1 in He. congruence.
Qed.

Lemma first_suffix : target +:+ "." +:+ pretty 1%nat = target +:+ ".1".
Proof. reflexivity. Qed.

(** What the fetch cell stores when the server answers and the data
    directory exists or can be made. *)
Lemma cell_fetch_stores (s : State) body :
  remote (world s) !! data_url = Some body →
  directory_or_free (fs (world s)) "data" →
  directory_or_free (fs (world s)) "data/PittsburghBridge" →
  ∃ f1 name,
    (∀ p, p ∉ ["data"; "data/PittsburghBridge"] → f1 !! p = fs (world s) !! p) ∧
    f1 !! "data" = Some Directory ∧
    f1 !! "data/PittsburghBridge" = Some Directory ∧
    free_name target f1 = Some name ∧
    fs (world (cell_fetch s).1) = <[name := RegularFile body]> f1.
Proof.
  intros Hbody Ha Hb.
  destruct (make_data_directories _ Ha Hb) as (f1 & Hf1 & Hda & Hdb & Ht).
  assert (make_directories ["data"; "data/PittsburghBridge"] f1 = f1) as Hagain
    by (cbn; by rewrite Hda, Hdb).
  destruct (free_name_total target f1) as [name Hname].
  exists f1, name. split; [| split; [done |]; split; [done |]; split; [done |]].
  { intros p Hp. rewrite <- Hf1. by apply make_directories_other. }
  unfold cell_fetch. py_run.
  unfold wget_P, mkdir_p, with_fs, with_request.
  cbn [fs remote requests cuda_available cuda_current].
  rewrite Hbody, data_directory_prefixes, data_directory, Hf1, Hagain, Hdb.
  change ("data/PittsburghBridge" +:+ "/" +:+ basename "" data_url)
    with target.
  by rewrite Hname.
Qed.

(** X9: the fetch cell and the load cell agree on the path: on a disk where
    nothing is at the target path, with the server answering and the data
    directory there or free to make, the load cell run after the fetch cell
    reads exactly the bytes the server sent, and ends as decoding them
    ends. *)
Theorem fetch_then_load (s : State) body :
  fs (world s) !! target = None →
  remote (world s) !! data_url = Some body →
  directory_or_free (fs (world s)) "data" →
  directory_or_free (fs (world s)) "data/PittsburghBridge" →
  read_archive lib (fs (world (cell_fetch s).1)) = decode_archive lib body ∧
  (cell_load lib (cell_fetch s).1).2 = load_result (decode_archive lib body).
Proof.
  intros Hnone Hbody Ha Hb.
  destruct (cell_fetch_stores s body Hbody Ha Hb)
    as (f1 & name & Hf1 & Hda & Hdb & Hname & Hfs).
  assert (name = target) as ->.
  { unfold free_name in Hname. rewrite Hf1, Hnone in Hname by not_listed.
    by injection Hname. }
  assert (read_archive lib (fs (world (cell_fetch s).1))
          = decode_archive lib body) as Hread.
  { apply read_archive_open; rewrite Hfs; [| apply lookup_insert_eq].
    rewrite blocked_target, !lookup_insert_ne by done. by rewrite Hda, Hdb. }
  split; [done |]. by rewrite cell_load_outcome, Hread.
Qed.

(** X10: the fetch cell never refreshes the archive: when something is at
    the target path already, the load cell ends after the fetch cell as it
    would have ended without it; and when the server answers, the data
    directory is there or free to make and the name with the suffix ".1" is
    free, the new copy is stored under that name. *)
Theorem refetch_keeps_archive (s : State) entry :
  fs (world s) !! target = Some entry →
  (cell_load lib (cell_fetch s).1).2 = (cell_load lib s).2 ∧
  ∀ body,
    remote (world s) !! data_url = Some body →
    directory_or_free (fs (world s)) "data" →
    directory_or_free (fs (world s)) "data/PittsburghBridge" →
    fs (world s) !! (target +:+ ".1") = None →
    fs (world (cell_fetch s).1) !! (target +:+ ".1") = Some (RegularFile body).
Proof.
  intros Hentry. split.
  - rewrite !cell_load_outcome. f_equal.
    apply read_archive_same; [| apply fetch_keeps_blocked].
    rewrite Hentry. by apply (files_kept_cell_fetch s).
  - intros body Hbody Ha Hb Hfree.
    destruct (cell_fetch_stores s body Hbody Ha Hb)
      as (f1 & name & Hf1 & _ & _ & Hname & Hfs).
    assert (name = target +:+ ".1") as ->.
    { unfold free_name in Hname. rewrite Hf1, Hentry in Hname by not_listed.
      cbn [unique_name] in Hname. rewrite first_suffix in Hname.
      rewrite Hf1, Hfree in Hname by not_listed. by injection Hname. }
    rewrite Hfs. apply lookup_insert_eq.
Qed.

(** *** The shell line [mkdir -p] and the slice [[..., :3]] *)

Lemma make_directories_again ps (f : gmap string Entry) :
  make_directories ps (make_directories ps f) = make_directories ps f.
Proof.
  revert f. induction ps as [| p ps IH]; intros f; [done |].
  cbn [make_directories].
  destruct (f !! p) as [[| c] |] eqn:Hp.
  - rewrite (make_directories_kept ps f p Directory Hp). apply IH.
  - by rewrite Hp.
  - rewrite (make_directories_kept ps (<[p := Directory]> f) p Directory)
      by apply lookup_insert_eq.
    apply IH.
Qed.

(** X11: the [mkdir -p] line can be repeated: running it a second time
    changes nothing, whether the first run made the directories, found
    them, or was stopped by a regular file in the way. *)
Theorem mkdir_p_again (dir : string) (w : World) :
  mkdir_p dir (mkdir_p dir w) = mkdir_p dir w.
Proof.
  unfold mkdir_p, with_fs. cbn [fs remote requests cuda_available cuda_current].
  by rewrite make_directories_again.
Qed.

(** X12: the slice [[..., :3]] only ever drops channels: an image whose
    pixels have at most three channels (a cloud with RGB colours) is shown
    exactly as it was rendered. *)
Theorem three_channels_unchanged (im : Image) :
  Forall (Forall (λ px, (length px ≤ 3)%nat)) im →
  first_three_channels im = im.
Proof.
  unfold first_three_channels. intros Him.
  induction Him as [| row im Hrow _ IH]; [done |].
  cbn. f_equal; [| exact IH].
  induction Hrow as [| px row Hpx _ IHrow]; [done |].
  cbn. f_equal; [by apply take_ge | exact IHrow].
Qed.

(** X13: a render cell never draws on a figure that was already there: it
    opens its own figure before it shows the image, so the figures present
    before the cell are all still there, unchanged, below at most one new
    figure, and below exactly one when the cell completes. *)
Theorem render_opens_own_figure (s : State) :
  ∃ new : list (Figure Image),
    figures (cell_render lib s).1 = (new ++ figures s)%list ∧
    (length new ≤ 1)%nat ∧
    ((cell_render lib s).2 = inr () → length new = 1%nat).
Proof.
  assert (∀ e, cell_render lib s = (s, inl e) →
               ∃ new : list (Figure Image),
                 figures (cell_render lib s).1 = (new ++ figures s)%list ∧
                 (length new ≤ 1)%nat ∧
                 ((cell_render lib s).2 = inr () → length new = 1%nat))
    as Hstopped.
  { intros e ->. exists []. split; [done |]. split; [cbn; lia | done]. }
  destruct (ns s !! "renderer") as [vr |] eqn:Hr;
    [| eapply Hstopped; unfold cell_render; by py_run].
  destruct (ns s !! "point_cloud") as [vp |] eqn:Hp;
    [| eapply Hstopped; unfold cell_render; by py_run].
  destruct vr as [| | | | | | | | | r |];
    try (eapply Hstopped; unfold cell_render; py_run; by destruct vp).
  destruct vp as [| | | | pc | | | | | |];
    try (eapply Hstopped; unfold cell_render; by py_run).
  rewrite (cell_render_run s r pc Hr Hp).
  destruct (first_shown (PointsRenderer_call lib r pc)) as [e | im];
    eexists [_]; cbn [fst snd figures app length];
    (split; [reflexivity |]); split; (lia || done).
Qed.

(** X14: the fetch cell itself never raises, whatever the download does
    (the exit status of a shell line is dropped); when the server does not
    answer and nothing is at the target path, the failure only surfaces in
    the load cell: as file-not-found, or as not-a-directory when a regular
    file sits where the target path needs a directory. *)
Theorem failed_download_surfaces_at_load (s : State) :
  (cell_fetch s).2 = inr () ∧
  (remote (world s) !! data_url = None →
   fs (world s) !! target = None →
   (cell_load lib (cell_fetch s).1).2
   = if blocked (fs (world s)) target
     then inl NotADirectoryError else inl FileNotFoundError).
Proof.
  split; [unfold cell_fetch; by py_run |].
  intros Hremote Hnone. rewrite cell_load_outcome.
  assert (fs (world (cell_fetch s).1) !! target = None) as Hafter.
  { unfold cell_fetch. py_run.
    unfold wget_P, mkdir_p, with_fs, with_request.
    cbn [fs remote requests cuda_available cuda_current].
    rewrite Hremote. cbn [fs]. rewrite data_directory_prefixes.
    rewrite make_directories_other by not_listed. exact Hnone. }
  unfold read_archive. rewrite fetch_keeps_blocked, Hafter.
  by destruct (blocked (fs (world s)) target).
Qed.

End Properties.

(** ** Runs of the small instance *)

Example run_all_fresh :
  (run_all Toy.lib (Toy.start Toy.fresh)).2 = inr () ∧
  length (figures (run_all Toy.lib (Toy.start Toy.fresh)).1) = 2%nat ∧
  requests (world (run_all Toy.lib (Toy.start Toy.fresh)).1) = [data_url].
Proof. vm_compute. done. Qed.

Example fetch_local_suffix :
  fs (world (cell_fetch (Toy.start Toy.local)).1) !! (target +:+ ".1")
  = Some (RegularFile Toy.archive).
Proof. vm_compute. reflexivity. Qed.

Example load_without_rgb :
  (cell_load Toy.lib (Toy.start Toy.local_without_rgb)).2 = inl (KeyError "rgb").
Proof. vm_compute. reflexivity. Qed.

Example load_mismatched :
  (cell_load Toy.lib (Toy.start Toy.local_mismatched)).2 = inl ValueError.
Proof. vm_compute. reflexivity. Qed.

Example load_single_array :
  (cell_load Toy.lib (Toy.start Toy.local_single_array)).2 = inl IndexError ∧
  cuda_current (world (cell_load Toy.lib (Toy.start Toy.local_single_array)).1)
  = Some 0.
Proof. vm_compute. done. Qed.

Example load_structured_array :
  (cell_load Toy.lib (Toy.start Toy.local_structured_array)).2 = inr ().
Proof. vm_compute. reflexivity. Qed.

Example load_raw_members :
  (cell_load Toy.lib (Toy.start Toy.local_raw_members)).2 = inl TypeError.
Proof. vm_compute. reflexivity. Qed.

Example load_blocked :
  (cell_load Toy.lib (Toy.start Toy.local_blocked)).2 = inl NotADirectoryError.
Proof. vm_compute. reflexivity. Qed.

(** Colours of one value give pixels of two channels, which [imshow]
    refuses: the load completes and the first render cell fails. *)
Example show_two_channels :
  (cell_load Toy.lib (Toy.start Toy.local_one_value_colours)).2 = inr () ∧
  (run_pipeline Toy.lib (Toy.start Toy.local_one_value_colours)).2
  = inl TypeError ∧
  length (figures (run_pipeline Toy.lib (Toy.start Toy.local_one_value_colours)).1)
  = 1%nat.
Proof. vm_compute. done. Qed.

Example render_wrong_kind :
  (cell_render Toy.lib Toy.cluttered_renderer).2
  = inl (NameError "point_cloud").
Proof. vm_compute. reflexivity. Qed.

Example render_before_load :
  (cell_render Toy.lib (Toy.start Toy.local)).2 = inl (NameError "renderer").
Proof. vm_compute. reflexivity. Qed.

(** The pixel in row 1, column 2 of the image shown: the toy renderer
    gives it the channels [1; 2; 0; 1], three of which are shown. *)
Example shown_pixel :
  (head (figures (cell_render Toy.lib Toy.ready).1)
     ≫= λ fig, head (shown fig)
     ≫= λ im, im !! 1%nat
     ≫= λ row, row !! 2%nat)
  = Some [1; 2; 0].
Proof. vm_compute. reflexivity. Qed.

(** ** The claims on the small instance *)

(** The load cell completes on the stored archive: both arrays have two
    records. *)
Lemma point_cloud_index_correspondence_witness :
  ∃ verts rgb,
    ns (cell_load Toy.lib (Toy.start Toy.local)).1 !! "point_cloud"
    = Some (VPointclouds (mkPointclouds [verts] [rgb])) ∧
    len verts = len rgb.
Proof.
  assert ((cell_load Toy.lib (Toy.start Toy.local)).2 = inr ()) as Hok
    by (vm_compute; reflexivity).
  destruct (point_cloud_index_correspondence Toy.lib _ Hok)
    as (verts & rgb & _ & _ & Hpc & _ & Hlen & _).
  exists verts, rgb. split; [exact Hpc | exact Hlen].
Defined.


(** Two states that share the renderer and the point cloud and nothing
    else: another world, a figure already open. *)
Lemma render_is_pure_witness :
  (cell_render Toy.lib Toy.ready).2
  = (cell_render Toy.lib
       (mkState (ns Toy.ready) Toy.fresh [mkFigure None [] None None])).2.
Proof.
  apply (render_is_pure Toy.lib Toy.ready
           (mkState (ns Toy.ready) Toy.fresh [mkFigure None [] None None]));
    reflexivity.
Defined.

Lemma render_resolution_witness :
  ∃ im : @Image Z,
    ns (cell_render Toy.lib Toy.ready).1 !! "images"
    = Some (VImages (mkImages [im])) ∧
    resolution 512 im ∧
    (cell_render Toy.lib Toy.ready).2 = inr ().
Proof.
  assert (ns Toy.ready !! "renderer" = Some (VRenderer Toy.renderer)) as Hr
    by (vm_compute; reflexivity).
  assert (ns Toy.ready !! "point_cloud" = Some (VPointclouds Toy.cloud)) as Hpc
    by (vm_compute; reflexivity).
  assert (raster_settings (rasterizer Toy.renderer) = mkSettings 512 (3 # 1000) 10)
    as Hset by reflexivity.
  destruct (render_resolution Toy.lib Toy.ready Toy.renderer Toy.cloud Hr Hpc Hset)
    as (imgs & Himgs & _ & _ & _ & _ & Hone).
  destruct (Hone _ _ eq_refl eq_refl) as (im & Hbatch & Hres & _ & _ & _).
  exists im. destruct imgs as [b]. cbn [batch] in Hbatch. subst b.
  split; [exact Himgs |]. split; [exact Hres |].
  vm_compute. reflexivity.
Defined.


(** Nothing on disk and no GPU: the run stops with file-not-found, and the
    setup has chosen the CPU. *)
Lemma load_failure_propagates_witness :
  (run_pipeline Toy.lib (Toy.start Toy.fresh)).2 = inl FileNotFoundError ∧
  ns (setup_device (Toy.start Toy.fresh)).1 !! "device" = Some (VDevice Cpu).
Proof.
  destruct (load_failure_propagates Toy.lib (Toy.start Toy.fresh))
    as [Hload Hdevice].
  split.
  - apply (Hload FileNotFoundError). vm_compute. reflexivity.
  - apply Hdevice. reflexivity.
Defined.

(** The archive is kept when it is there, and stored when it is not. *)
Lemma fetch_requests_always_witness :
  fs (world (cell_fetch (Toy.start Toy.local)).1) !! target
  = Some (RegularFile Toy.archive) ∧
  fs (world (cell_fetch (Toy.start Toy.fresh)).1) !! target
  = Some (RegularFile Toy.archive).
Proof.
  split.
  - destruct (fetch_requests_always (Toy.start Toy.local)) as (_ & Hkept & _).
    apply Hkept. vm_compute. reflexivity.
  - destruct (fetch_requests_always (Toy.start Toy.fresh)) as (_ & _ & Hstored).
    apply (Hstored Toy.archive).
    + vm_compute. reflexivity.
    + left. vm_compute. reflexivity.
    + left. vm_compute. reflexivity.
    + vm_compute. reflexivity.
Defined.


Lemma camera_pose_fixed_witness :
  camera_bound Toy.lib Cpu
    (cell_render Toy.lib
       (cell_renderer_alpha Toy.lib (Toy.with_device Toy.local)).1).1.
Proof.
  assert (ns (Toy.with_device Toy.local) !! "device" = Some (VDevice Cpu)) as Hd
    by (vm_compute; reflexivity).
  destruct (camera_pose_fixed Toy.lib (Toy.with_device Toy.local) Cpu Hd)
    as (Hbound & _ & _ & Hlater).
  apply Hlater; [| exact Hbound].
  apply elem_of_cons. by left.
Defined.

Lemma renderers_differ_in_compositor_only_witness :
  ∃ r1 r2 : @PointsRenderer Z unit,
    ns (cell_renderer_alpha Toy.lib (Toy.with_device Toy.local)).1 !! "renderer"
    = Some (VRenderer r1) ∧
    rasterizer r1 = rasterizer r2 ∧
    compositor r1 = AlphaCompositor None ∧
    compositor r2 = NormWeightedCompositor None.
Proof.
  assert (ns (Toy.with_device Toy.local) !! "device" = Some (VDevice Cpu)) as Hd
    by (vm_compute; reflexivity).
  destruct (renderers_differ_in_compositor_only Toy.lib
              (Toy.with_device Toy.local) Cpu Hd)
    as (r1 & r2 & H1 & _ & Hrast & _ & _ & Hc1 & Hc2 & _).
  exists r1, r2. repeat split; assumption.
Defined.

(** *** Where the code departs from the specification *)


(** No GPU: the setup completes on the CPU instead of failing. *)
Lemma device_failure_propagates_fails :
  ¬ device_failure_propagates (Toy.start Toy.fresh).
Proof.
  intros H. destruct (H eq_refl) as [e He]. by vm_compute in He.
Qed.

(** The archive is on disk and the cell asks the server all the same. *)
Lemma fetch_only_if_absent_fails :
  ¬ fetch_only_if_absent (Toy.start Toy.local).
Proof.
  intros H.
  assert (is_Some (fs (world (Toy.start Toy.local)) !! target)) as Hthere
    by (eexists; vm_compute; reflexivity).
  apply H in Hthere. by vm_compute in Hthere.
Qed.


(** ** Further properties on the small instance *)

Lemma render_without_inputs_witness :
  cell_render Toy.lib (Toy.start Toy.local)
  = (Toy.start Toy.local, inl (NameError "renderer")) ∧
  cell_render Toy.lib Toy.cluttered_renderer
  = (Toy.cluttered_renderer, inl (NameError "point_cloud")).
Proof.
  split.
  - apply render_without_inputs. vm_compute. reflexivity.
  - apply render_without_inputs.
    + eexists. vm_compute. reflexivity.
    + vm_compute. reflexivity.
Defined.

Lemma renderer_cell_before_load_witness :
  (cell_renderer_norm Toy.lib (Toy.start Toy.local)).2
  = inl (NameError "device").
Proof.
  rewrite (renderer_cell_before_load Toy.lib (Toy.start Toy.local)
             (cell_renderer_norm Toy.lib)).
  - reflexivity.
  - vm_compute. reflexivity.
  - apply elem_of_cons. right. apply elem_of_cons. by left.
Defined.

Lemma renderer_cells_overwrite_witness :
  cell_renderer_norm Toy.lib
    (cell_renderer_alpha Toy.lib (Toy.with_device Toy.local)).1
  = cell_renderer_norm Toy.lib (Toy.with_device Toy.local).
Proof.
  assert (ns (Toy.with_device Toy.local) !! "device" = Some (VDevice Cpu)) as Hd
    by (vm_compute; reflexivity).
  destruct (renderer_cells_overwrite Toy.lib (Toy.with_device Toy.local) Cpu Hd)
    as (Hover & _).
  exact Hover.
Defined.

Lemma failed_load_keeps_point_cloud_witness :
  ns (cell_load Toy.lib Toy.loaded_before).1 !! "point_cloud"
  = Some (VPointclouds Toy.cloud).
Proof.
  assert ((cell_load Toy.lib Toy.loaded_before).2 = inl FileNotFoundError)
    as Hfail by (vm_compute; reflexivity).
  destruct (failed_load_keeps_point_cloud Toy.lib Toy.loaded_before _ Hfail)
    as [Hkept _].
  rewrite Hkept. vm_compute. reflexivity.
Defined.


Lemma one_device_witness :
  ∃ verts : @Tensor Z,
    ns (cell_load Toy.lib (Toy.start Toy.local)).1 !! "verts"
    = Some (VTensor verts) ∧
    device verts = Cpu.
Proof.
  assert ((cell_load Toy.lib (Toy.start Toy.local)).2 = inr ()) as Hok
    by (vm_compute; reflexivity).
  destruct (one_device Toy.lib _ Hok) as (verts & rgb & Hv & _ & Hdev & _).
  exists verts. split; [exact Hv | exact Hdev].
Defined.

Lemma pipeline_ends_as_load_witness :
  length (figures (run_pipeline Toy.lib (Toy.start Toy.local)).1) = 2%nat.
Proof.
  destruct (pipeline_ends_as_load Toy.lib (Toy.start Toy.local)) as [_ Hfigs].
  rewrite (Hfigs (replicate 2 [0; 0; 0]) (replicate 2 [0; 0; 0])).
  - reflexivity.
  - vm_compute. reflexivity.
  - vm_compute. reflexivity.
Defined.

Lemma fetch_then_load_witness :
  (cell_load Toy.lib (cell_fetch (Toy.start Toy.fresh)).1).2 = inr ().
Proof.
  destruct (fetch_then_load Toy.lib (Toy.start Toy.fresh) Toy.archive)
    as [_ Hload].
  - vm_compute. reflexivity.
  - vm_compute. reflexivity.
  - left. vm_compute. reflexivity.
  - left. vm_compute. reflexivity.
  - rewrite Hload. vm_compute. reflexivity.
Defined.

Lemma refetch_keeps_archive_witness :
  fs (world (cell_fetch (Toy.start Toy.local)).1) !! (target +:+ ".1")
  = Some (RegularFile Toy.archive).
Proof.
  destruct (refetch_keeps_archive Toy.lib (Toy.start Toy.local)
              (RegularFile Toy.archive)) as [_ Hcopy].
  - vm_compute. reflexivity.
  - apply Hcopy.
    + vm_compute. reflexivity.
    + right. vm_compute. reflexivity.
    + right. vm_compute. reflexivity.
    + vm_compute. reflexivity.
Defined.

Lemma three_channels_unchanged_witness :
  first_three_channels Toy.rgb_image = Toy.rgb_image.
Proof.
  apply three_channels_unchanged.
  repeat constructor.
Defined.

Lemma render_opens_own_figure_witness :
  ∃ new : list (Figure (@Image Z)),
    figures (cell_render Toy.lib Toy.ready).1 = (new ++ figures Toy.ready)%list ∧
    length new = 1%nat.
Proof.
  destruct (render_opens_own_figure Toy.lib Toy.ready) as (new & Hfigs & _ & Hone).
  exists new. split; [exact Hfigs |].
  apply Hone. vm_compute. reflexivity.
Defined.

Lemma failed_download_surfaces_at_load_witness :
  (cell_load Toy.lib (cell_fetch (Toy.start Toy.offline)).1).2
  = inl FileNotFoundError ∧
  (cell_load Toy.lib (cell_fetch (Toy.start Toy.local_blocked)).1).2
  = inl NotADirectoryError.
Proof.
  split.
  - destruct (failed_download_surfaces_at_load Toy.lib (Toy.start Toy.offline))
      as [_ Hload].
    rewrite Hload; vm_compute; reflexivity.
  - destruct (failed_download_surfaces_at_load Toy.lib
                (Toy.start Toy.local_blocked)) as [_ Hload].
    rewrite Hload; vm_compute; reflexivity.
Defined.
